(** * Cadence: risk model and day-by-day scheduler

    A shallow embedding of [risk_model.py], [scheduler.py] and
    [scoring.py], and of the risk bands and the bar-building loop of
    [ui_calendar.py].

    Numbers.  Python floats are idealised as exact numbers: the risk model
    needs [exp], so its floats are real numbers ([R]); the scheduler, the
    scores and the calendar only add, subtract, multiply, divide, compare
    and round, so their floats are rationals ([Q]) and every definition of
    theirs evaluates.  Rounding error of the floating-point operations
    themselves is outside the model; Python's [round(x, n)] is kept, as
    round-half-to-even on [x * 10^n], and its result stands for the
    decimal it displays.  One expression of the
    scheduler computes with such a rounded float, [used - daily_capacity];
    exact arithmetic would put it on a rounding tie that binary64 breaks,
    so there the doubles and their subtraction are modelled ([b64]).

    Tables.  A pandas DataFrame is a list of typed rows together with the
    facts about its column set that the code tests. *)

From Stdlib Require Import Reals Lra Lqa Lia ZArith QArith Qround Qminmax.
From Stdlib Require Import Qabs.
From Stdlib Require Import List Sorting.Sorted Sorting.Permutation.
From stdpp Require Import base option list gmap strings.

Inductive Exception :=
  | KeyError (msg : string).

(* ================================================================== *)
(** ** risk_model.py *)
(* ================================================================== *)

Module RiskModel.
Local Open Scope R_scope.

(** One row of the input table. *)
Record Task := mkTask {
  name : string;
  days_left : Z;
  est_hours : R;
  strategic_importance : Z;
  business_impact : Z;
  dependency_risk : bool
}.

(** The input table: its column names and its rows. *)
Record DataFrame := mkDataFrame {
  columns : list string;
  rows : list Task
}.

(** One row of the output table.  [task] holds the input columns after
    [days_left] and [est_hours] have been overwritten by their clipped
    values. *)
Record RiskRow := mkRiskRow {
  task : Task;
  deadline_window_days : Z;
  capacity_before_deadline : R;
  slack_hours : R;
  overload_severity : R;
  overload_norm : R;
  urgency : R;
  competition_pressure : R;
  dep : Z;
  impact_weight : R;
  risk_score : R;
  failure_probability : R;
  expected_impact : R;
  expected_loss_hours : R
}.

Record ForecastRow := mkForecastRow {
  capacity_hours_per_day : R;
  capacity_delta : R;
  stress_index : R;
  fc_expected_loss_hours : R;
  high_risk_tasks_pct : R
}.

#[export] Instance Rle_decision (x y : R) : Decision (x <= y) := Rle_dec x y.
#[export] Instance Rlt_decision (x y : R) : Decision (x < y) := Rlt_dec x y.

Definition _sigmoid (x : R) : R := 1 / (1 + exp (- x)).

(** [Series.sum()] *)
Definition Rsum (l : list R) : R := fold_right Rplus 0 l.

(** Round half to even, on the reals. *)
Definition round_half_even (x : R) : Z :=
  let f := Zfloor x in
  match total_order_T (x - IZR f) (1 / 2) with
  | inleft (left _) => f
  | inleft (right _) => if Z.even f then f else (f + 1)%Z
  | inright _ => (f + 1)%Z
  end.

(** Python's [round(x, ndigits)]. *)
Definition round (x : R) (ndigits : nat) : R :=
  IZR (round_half_even (x * 10 ^ ndigits)) / 10 ^ ndigits.

(** [Series.clip(lower, upper)] on one value. *)
Definition clip (lower upper x : R) : R := Rmin (Rmax x lower) upper.

Definition required_cols : list string :=
  ["name"; "days_left"; "est_hours";
   "strategic_importance"; "business_impact"; "dependency_risk"]%string.

(** The loop over [required_cols]: the first absent column raises. *)
Fixpoint check_required (cols req : list string) : option Exception :=
  match req with
  | [] => None
  | c :: req' =>
      if bool_decide (c ∈ cols) then check_required cols req'
      else Some (KeyError ("Missing required column: " +:+ c))
  end.

(** Lines 57-58: [days_left] and [est_hours] are overwritten in place. *)
Definition clip_task (t : Task) : Task :=
  {| name := name t;
     days_left := Z.max (days_left t) 1;
     est_hours := Rmax (est_hours t) 0;
     strategic_importance := strategic_importance t;
     business_impact := business_impact t;
     dependency_risk := dependency_risk t |}.

(** [out.loc[out["days_left"] <= row["days_left"], "est_hours"].sum()] *)
Definition competing_hours (out : list Task) (row : Task) : R :=
  Rsum (map est_hours
          (filter (fun t => (days_left t <= days_left row)%Z) out)).

Definition _competition_pressure
    (out : list Task) (row : Task) (window_cap : R) : R :=
  let pressure := competing_hours out row / (window_cap + 1e-9) in
  Rmax 0 (pressure - 1).

Definition w_overload : R := 1.8.
Definition w_competition : R := 1.2.
Definition w_urgency : R := 1.1.
Definition w_dep : R := 0.7.
Definition bias : R := -1.2.

(** All derived columns of one row; [out] is the whole table after
    clipping, which [_competition_pressure] reads. *)
Definition risk_row
    (out : list Task) (available_hours_per_day : R)
    (planning_horizon_days : Z) (t : Task) : RiskRow :=
  let window := Z.min (days_left t) planning_horizon_days in
  let cap_before := IZR window * available_hours_per_day in
  let slack := cap_before - est_hours t in
  let severity := Rmax (- slack) 0 in
  let o_norm := severity / (available_hours_per_day + 1e-9) in
  let urg := 1 / IZR (days_left t) in
  let comp := _competition_pressure out t cap_before in
  let d := if dependency_risk t then 1%Z else 0%Z in
  let iw := Rmax ((0.5 * IZR (strategic_importance t)
                   + 0.5 * IZR (business_impact t)) / 5) 0.1 in
  let score := bias + w_overload * o_norm + w_competition * comp
               + w_urgency * urg + w_dep * IZR d in
  let fp := clip 0 1 (_sigmoid score) in
  {| task := t;
     deadline_window_days := window;
     capacity_before_deadline := cap_before;
     slack_hours := slack;
     overload_severity := severity;
     overload_norm := o_norm;
     urgency := urg;
     competition_pressure := comp;
     dep := d;
     impact_weight := iw;
     risk_score := score;
     failure_probability := fp;
     expected_impact := fp * iw;
     expected_loss_hours := fp * est_hours t |}.

Definition compute_task_risk
    (df : DataFrame) (available_hours_per_day : R)
    (planning_horizon_days : Z) : Exception + list RiskRow :=
  match check_required (columns df) required_cols with
  | Some e => inl e
  | None =>
      let out := map clip_task (rows df) in
      inr (map (risk_row out available_hours_per_day planning_horizon_days)
             out)
  end.

Definition compute_weighted_stress (df_risk : list RiskRow) : R :=
  let pw := Rsum (map (fun r => failure_probability r * impact_weight r)
                    df_risk) in
  let w := Rsum (map impact_weight df_risk) in
  let weighted := pw / (w + 1e-9) * 100 in
  round weighted 1.

(** [(df_risk["failure_probability"] >= 0.7).mean()]; the mean of an empty
    column is not a number in pandas and [0 / 0] here. *)
Definition high_risk_mean (df_risk : list RiskRow) : R :=
  INR (length (filter (fun r => 0.7 <= failure_probability r) df_risk))
  / INR (length df_risk).

(** The body of the loop over [capacity_scenarios]. *)
Definition forecast_row
    (df : DataFrame) (available_hours_per_day : R)
    (planning_horizon_days : Z) (delta : R) : Exception + ForecastRow :=
  let cap := Rmax 1 (available_hours_per_day + delta) in
  match compute_task_risk df cap planning_horizon_days with
  | inl e => inl e
  | inr df_risk =>
      inr {| capacity_hours_per_day := cap;
             capacity_delta := delta;
             stress_index := compute_weighted_stress df_risk;
             fc_expected_loss_hours :=
               round (Rsum (map expected_loss_hours df_risk)) 1;
             high_risk_tasks_pct := round (high_risk_mean df_risk * 100) 1 |}
  end.

Fixpoint forecast_rows
    (df : DataFrame) (available_hours_per_day : R)
    (planning_horizon_days : Z) (scenarios : list R)
    : Exception + list ForecastRow :=
  match scenarios with
  | [] => inr []
  | delta :: rest =>
      match forecast_row df available_hours_per_day planning_horizon_days
              delta with
      | inl e => inl e
      | inr r =>
          match forecast_rows df available_hours_per_day
                  planning_horizon_days rest with
          | inl e => inl e
          | inr rs => inr (r :: rs)
          end
      end
  end.

(** [sort_values("capacity_hours_per_day")] as a stable insertion sort; rows
    of equal capacity differ in [capacity_delta] only. *)
Fixpoint insert_by_capacity (r : ForecastRow) (l : list ForecastRow)
    : list ForecastRow :=
  match l with
  | [] => [r]
  | r' :: l' =>
      if decide (capacity_hours_per_day r <= capacity_hours_per_day r')
      then r :: l
      else r' :: insert_by_capacity r l'
  end.

Definition sort_by_capacity (l : list ForecastRow) : list ForecastRow :=
  fold_right insert_by_capacity [] l.

Definition default_scenarios : list R := [-2; -1; 0; 1; 2].

Definition forecast_system_risk
    (df : DataFrame) (available_hours_per_day : R)
    (planning_horizon_days : Z) (capacity_scenarios : option (list R))
    : Exception + list ForecastRow :=
  let scenarios := default default_scenarios capacity_scenarios in
  match forecast_rows df available_hours_per_day planning_horizon_days
          scenarios with
  | inl e => inl e
  | inr [] => inl (KeyError "capacity_hours_per_day")
  | inr rs => inr (sort_by_capacity rs)
  end.

(** *** Vocabulary of the statements *)

(** A row as the risk columns see it, after lines 57-58. *)
Definition clipped (t : Task) : Prop :=
  (1 <= days_left t)%Z /\ 0 <= est_hours t.

(** A valid task: both 1-5 ratings are in range. *)
Definition valid_task (t : Task) : Prop :=
  (1 <= strategic_importance t <= 5)%Z /\ (1 <= business_impact t <= 5)%Z.

(** The hours competing for the window of row [r], read off the output
    table: [est_hours] of every row whose [days_left] is at most that of
    [r]. *)
Definition window_hours (table : list RiskRow) (r : RiskRow) : R :=
  Rsum (map (fun r' => est_hours (task r'))
          (filter (fun r' => (days_left (task r') <= days_left (task r))%Z)
             table)).

(** Stated from the spec: competition pressure with the window's capacity
    itself as the divisor. *)
Definition spec_competition_pressure (table : list RiskRow) (r : RiskRow)
    : R :=
  Rmax 0 (window_hours table r / capacity_before_deadline r - 1).

(** The task of the end-to-end scenarios, under any name. *)
Definition scenario_task (n : string) : Task :=
  {| name := n;
     days_left := 1;
     est_hours := 4;
     strategic_importance := 3;
     business_impact := 3;
     dependency_risk := false |}.

Definition scenario_table (n : string) : DataFrame :=
  {| columns := required_cols; rows := [scenario_task n] |}.

(** A risk table of one row, built by hand for the stress aggregator. *)
Definition single_row (p w : R) : RiskRow :=
  {| task := scenario_task "t";
     deadline_window_days := 1;
     capacity_before_deadline := 0;
     slack_hours := 0;
     overload_severity := 0;
     overload_norm := 0;
     urgency := 1;
     competition_pressure := 0;
     dep := 0;
     impact_weight := w;
     risk_score := 0;
     failure_probability := p;
     expected_impact := p * w;
     expected_loss_hours := p * 4 |}.


(** Interval arithmetic for the two constants [sigmoid(-0.1)] and
    [sigmoid(-1.2)]: [n] squarings of the fixed-point number [a / scale],
    each rounded down. *)
Fixpoint square_chain (scale a : Z) (n : nat) : Z :=
  match n with
  | O => a
  | S n' => square_chain scale (a * a / scale) n'
  end.




End RiskModel.

(* ================================================================== *)
(** ** scheduler.py *)
(* ================================================================== *)

Module Scheduler.
Local Open Scope Q_scope.

(** One row of [df_scored]; the value of a column that the table does not
    have is never read. *)
Record Row := mkRow {
  name : string;
  days_left : Z;
  est_hours : Q;
  priority_score : Q;
  failure_probability : Q
}.

Record DataFrame := mkDataFrame {
  columns : list string;
  rows : list Row
}.

(** One dict of [schedule_rows]; [allocations] is kept as the list of
    pairs that the code joins into a display string. *)
Record ScheduleDay := mkScheduleDay {
  day : Z;
  allocated_hours : Q;
  remaining_capacity : Q;
  allocations : list (string * Q);
  overload_hours : Q
}.

Record AllocationEntry := mkAllocationEntry {
  al_task : string;
  al_day : Z;
  al_hours : Q;
  al_failure_probability : Q;
  al_deadline_day : Z
}.

Record DeadlineRisk := mkDeadlineRisk {
  dr_task : string;
  dr_unfinished_hours : Q;
  dr_deadline_day : Z
}.

(** The returned frame with its two [attrs]. *)
Record Schedule := mkSchedule {
  schedule_rows : list ScheduleDay;
  deadline_risks : list DeadlineRisk;
  allocation_log : list AllocationEntry
}.

(** State of the scan over the tasks within one day. *)
Record DayState := mkDayState {
  remaining : gmap string Q;
  cap_left : Q;
  day_allocations : list (string * Q);
  day_log : list AllocationEntry
}.

(** State carried from day to day. *)
Record RunState := mkRunState {
  run_remaining : gmap string Q;
  run_rows : list ScheduleDay;
  run_log : list AllocationEntry
}.

Definition Qltb (x y : Q) : bool := negb (Qle_bool y x).

(** Round half to even. *)
Definition round_half_even (x : Q) : Z :=
  let f := Qfloor x in
  match Qcompare (x - inject_Z f) (1 # 2) with
  | Lt => f
  | Eq => if Z.even f then f else (f + 1)%Z
  | Gt => (f + 1)%Z
  end.

(** Python's [round(x, ndigits)]. *)
Definition round (x : Q) (ndigits : nat) : Q :=
  let scale := inject_Z (10 ^ Z.of_nat ndigits) in
  inject_Z (round_half_even (x * scale)) / scale.

(** Stable insertion sort; [le r r'] says that [r] may stand before [r'].
    pandas leaves the order of rows with equal keys to the sorting
    algorithm; here they keep their input order. *)
Fixpoint insert_row (le : Row -> Row -> bool) (r : Row) (l : list Row)
    : list Row :=
  match l with
  | [] => [r]
  | r' :: l' => if le r r' then r :: l else r' :: insert_row le r l'
  end.

Definition sort_values (le : Row -> Row -> bool) (l : list Row) : list Row :=
  fold_right (insert_row le) [] l.

(** [priority_score / est_hours.clip(lower=0.1)] *)
Definition value_density (r : Row) : Q :=
  priority_score r / Qmax (est_hours r) 0.1.

(** Descending [_vd]. *)
Definition vd_order (r r' : Row) : bool :=
  Qle_bool (value_density r') (value_density r).

(** Ascending [(days_left, est_hours)]. *)
Definition edf_order (r r' : Row) : bool :=
  (days_left r <? days_left r')%Z
  || ((days_left r =? days_left r')%Z
      && Qle_bool (est_hours r) (est_hours r')).

(** The dict comprehensions: a later row of the same name overwrites. *)
Definition dict_of (f : Row -> Q) (tasks : list Row) : gmap string Q :=
  fold_left (fun m r => <[name r := f r]> m) tasks ∅.

(** [remaining[task_name]]; every name read was inserted by [dict_of]. *)
Definition get (m : gmap string Q) (k : string) : Q := default 0 (m !! k).

(** The body of [if take > 0:]: grant [take] hours of day [d] to [row]. *)
Definition grant
    (fp_lookup : gmap string Q) (d : Z) (row : Row) (take : Q)
    (st : DayState) : DayState :=
  let task_name := name row in
  {| remaining :=
       <[task_name := get (remaining st) task_name - take]> (remaining st);
     cap_left := cap_left st - take;
     day_allocations := day_allocations st ++ [(task_name, round take 2)];
     day_log :=
       day_log st ++
       [{| al_task := task_name;
           al_day := d;
           al_hours := round take 2;
           al_failure_probability := default 0 (fp_lookup !! task_name);
           al_deadline_day := days_left row |}] |}.

(** The [for _, row in tasks.iterrows()] loop of one day. *)
Fixpoint scan_tasks
    (fp_lookup : gmap string Q) (d : Z) (tasks : list Row) (st : DayState)
    : DayState :=
  match tasks with
  | [] => st
  | row :: rest =>
      let task_name := name row in
      let task_deadline := days_left row in
      if Qle_bool (get (remaining st) task_name) 0
      then scan_tasks fp_lookup d rest st
      else if (task_deadline <? d)%Z
      then scan_tasks fp_lookup d rest st
      else
        let take := Qmin (cap_left st) (get (remaining st) task_name) in
        let st' := if Qltb 0 take then grant fp_lookup d row take st
                   else st in
        if Qle_bool (cap_left st') 0 then st'
        else scan_tasks fp_lookup d rest st'
  end.

(** The binary64 number nearest to [x], ties to even: a significand of 53
    bits, or steps of [2^-1074] below the normal range.  Overflow to
    infinity is outside the model. *)
Definition b64 (x : Q) : Q :=
  match Qnum x with
  | Z0 => 0
  | _ =>
      let a := Qabs x in
      let e0 := (Z.log2 (Z.abs (Qnum x)) - Z.log2 (Zpos (Qden x)))%Z in
      let e1 := if Qle_bool (2 ^ e0) a then e0 else (e0 - 1)%Z in
      let e := Z.max (e1 - 52) (-1074) in
      let m := round_half_even (a / 2 ^ e) in
      (if Qle_bool 0 x then 1 else -1) * inject_Z m * 2 ^ e
  end.

(** [x - y] on floats: the doubles nearest to [x] and [y], subtracted and
    rounded to a double. *)
Definition fsub (x y : Q) : Q := b64 (b64 x - b64 y).

(** The body of [for day in range(1, horizon_days + 1)].  [used] is a
    float that [round] produced, the double nearest to its decimal, so
    [used - daily_capacity] is a binary64 subtraction. *)
Definition day_step
    (fp_lookup : gmap string Q) (daily_capacity : Q) (tasks : list Row)
    (rs : RunState) (d : Z) : RunState :=
  let st := scan_tasks fp_lookup d tasks
              {| remaining := run_remaining rs;
                 cap_left := daily_capacity;
                 day_allocations := [];
                 day_log := run_log rs |} in
  let used := round (daily_capacity - cap_left st) 2 in
  {| run_remaining := remaining st;
     run_rows :=
       run_rows rs ++
       [{| day := d;
           allocated_hours := used;
           remaining_capacity := round (cap_left st) 2;
           allocations := day_allocations st;
           overload_hours := round (Qmax 0 (fsub used daily_capacity)) 2 |}];
     run_log := day_log st |}.

(** [range(1, n + 1)] *)
Definition day_range (n : Z) : list Z :=
  map Z.of_nat (seq 1 (Z.to_nat n)).

Definition run_days
    (fp_lookup : gmap string Q) (daily_capacity : Q) (tasks : list Row)
    (days : list Z) (rs : RunState) : RunState :=
  fold_left (day_step fp_lookup daily_capacity tasks) days rs.

(** The last loop: one entry per row whose name still has hours left. *)
Fixpoint collect_risks (rem : gmap string Q) (tasks : list Row)
    : list DeadlineRisk :=
  match tasks with
  | [] => []
  | row :: rest =>
      if Qltb 0 (get rem (name row))
      then {| dr_task := name row;
              dr_unfinished_hours := round (get rem (name row)) 2;
              dr_deadline_day := days_left row |} :: collect_risks rem rest
      else collect_risks rem rest
  end.

(** The mode-dependent sort; [Operational] reads [priority_score]. *)
Definition sort_tasks (df : DataFrame) (mode : string)
    : Exception + list Row :=
  if String.eqb mode "Operational" then
    if bool_decide ("priority_score"%string ∈ columns df)
    then inr (sort_values vd_order (rows df))
    else inl (KeyError "priority_score")
  else inr (sort_values edf_order (rows df)).

Definition fp_lookup_of (df : DataFrame) (tasks : list Row)
    : gmap string Q :=
  if bool_decide ("failure_probability"%string ∈ columns df)
  then dict_of failure_probability tasks
  else ∅.

Definition initial_state (tasks : list Row) : RunState :=
  {| run_remaining := dict_of est_hours tasks;
     run_rows := [];
     run_log := [] |}.

Definition build_schedule
    (df_scored : DataFrame) (daily_capacity : Q) (horizon_days : Z)
    (mode : string) : Exception + Schedule :=
  match sort_tasks df_scored mode with
  | inl e => inl e
  | inr tasks =>
      let rs := run_days (fp_lookup_of df_scored tasks) daily_capacity tasks
                  (day_range horizon_days) (initial_state tasks) in
      inr {| schedule_rows := run_rows rs;
             deadline_risks := collect_risks (run_remaining rs) tasks;
             allocation_log := run_log rs |}
  end.

(** *** Vocabulary of the statements *)

(** The state after the first [n] days of the day loop. *)
Definition state_after
    (df : DataFrame) (daily_capacity : Q) (tasks : list Row) (n : nat)
    : RunState :=
  run_days (fp_lookup_of df tasks) daily_capacity tasks
    (map Z.of_nat (seq 1 n)) (initial_state tasks).

Definition Qsum (l : list Q) : Q := fold_right Qplus 0 l.

(** The rows in the order the day loop visits them. *)
Definition sorted_rows (df : DataFrame) (mode : string) : list Row :=
  match sort_tasks df mode with
  | inr tasks => tasks
  | inl _ => []
  end.

(** The [remaining] dict once the first [n] days have been scheduled. *)
Definition remaining_after
    (df : DataFrame) (daily_capacity : Q) (mode : string) (n : nat)
    : gmap string Q :=
  run_remaining (state_after df daily_capacity (sorted_rows df mode) n).

(** Hours granted to the task named [nm] on day [d]: what day [d] took off
    its [remaining] counter. *)
Definition allocated_on
    (df : DataFrame) (daily_capacity : Q) (mode : string) (d : nat)
    (nm : string) : Q :=
  get (remaining_after df daily_capacity mode (d - 1)) nm
  - get (remaining_after df daily_capacity mode d) nm.

(** Hours granted to the task named [nm] over the whole horizon. *)
Definition total_allocated
    (df : DataFrame) (daily_capacity : Q) (horizon_days : Z) (mode : string)
    (nm : string) : Q :=
  Qsum (map (fun d => allocated_on df daily_capacity mode d nm)
          (seq 1 (Z.to_nat horizon_days))).

(** The distinct task names of a table. *)
Definition task_names (df : DataFrame) : list string :=
  remove_dups (map name (rows df)).

(** A log entry with its [failure_probability] replaced by [0.0]. *)
Definition clear_fp (e : AllocationEntry) : AllocationEntry :=
  {| al_task := al_task e;
     al_day := al_day e;
     al_hours := al_hours e;
     al_failure_probability := 0;
     al_deadline_day := al_deadline_day e |}.

Definition day_state_clear_fp (st : DayState) : DayState :=
  {| remaining := remaining st;
     cap_left := cap_left st;
     day_allocations := day_allocations st;
     day_log := map clear_fp (day_log st) |}.

Definition run_state_clear_fp (rs : RunState) : RunState :=
  {| run_remaining := run_remaining rs;
     run_rows := run_rows rs;
     run_log := map clear_fp (run_log rs) |}.

(** A table of one task ["A"], due on day 1, without the optional
    columns. *)
Definition one_task_table (hours : Q) : DataFrame :=
  {| columns := ["name"; "days_left"; "est_hours"]%string;
     rows := [{| name := "A"; days_left := 1; est_hours := hours;
                 priority_score := 0; failure_probability := 0 |}] |}.

(** The scheduling scenario: A (2 days, 5 hours) and B (3 days, 5 hours),
    with and without a [failure_probability] column. *)
Definition scenario_rows : list Row :=
  [{| name := "A"; days_left := 2; est_hours := 5;
      priority_score := 0; failure_probability := 0.5 |};
   {| name := "B"; days_left := 3; est_hours := 5;
      priority_score := 0; failure_probability := 0.25 |}].

Definition scenario_table : DataFrame :=
  {| columns := ["name"; "days_left"; "est_hours"]%string;
     rows := scenario_rows |}.

(** Three tasks due on day 1 whose hours add up to one hour. *)
Definition three_task_table : DataFrame :=
  {| columns := ["name"; "days_left"; "est_hours"]%string;
     rows := [{| name := "A"; days_left := 1; est_hours := 0.328;
                 priority_score := 0; failure_probability := 0 |};
              {| name := "B"; days_left := 1; est_hours := 0.336;
                 priority_score := 0; failure_probability := 0 |};
              {| name := "C"; days_left := 1; est_hours := 0.336;
                 priority_score := 0; failure_probability := 0 |}] |}.

(** Two rows under one name. *)
Definition same_name_table : DataFrame :=
  {| columns := ["name"; "days_left"; "est_hours"]%string;
     rows := [{| name := "A"; days_left := 1; est_hours := 1;
                 priority_score := 0; failure_probability := 0 |};
              {| name := "A"; days_left := 1; est_hours := 3;
                 priority_score := 0; failure_probability := 0 |}] |}.

Definition scenario_table_fp : DataFrame :=
  {| columns := ["name"; "days_left"; "est_hours";
                 "failure_probability"]%string;
     rows := scenario_rows |}.





End Scheduler.

(* ================================================================== *)
(** ** scoring.py *)
(* ================================================================== *)

Module Scoring.
Local Open Scope Q_scope.

(** One row of the input table; the columns that the scores read. *)
Record Task := mkTask {
  name : string;
  days_left : Z;
  strategic_importance : Z;
  business_impact : Z;
  dependency_risk : bool
}.

Record DataFrame := mkDataFrame {
  columns : list string;
  rows : list Task
}.











(** *** Vocabulary of the statements *)

(** Both 1-5 ratings are in range. *)
Definition valid_task (t : Task) : Prop :=
  (1 <= strategic_importance t <= 5)%Z /\ (1 <= business_impact t <= 5)%Z.




End Scoring.

(* ================================================================== *)
(** ** ui_calendar.py *)
(* ================================================================== *)

Module Calendar.
Import Scheduler.
Local Open Scope Q_scope.






(** *** Vocabulary of the statements *)



End Calendar.

(* ================================================================== *)
(** ** Facts about the risk model *)
(* ================================================================== *)

Module RiskModelFacts.
Import RiskModel.
Import Lra.
Local Open Scope R_scope.

(** *** Real-number helpers *)

Lemma square_chain_sound (scale a : Z) (n : nat) (y : R) :
  (0 < scale)%Z -> (0 <= a)%Z ->
  IZR a / IZR scale <= exp y ->
  IZR (square_chain scale a n) / IZR scale <= exp (2 ^ n * y).
Proof.
  intros Hs. revert a y. induction n as [|n IH]; intros a y Ha Hy.
  - cbn [square_chain pow]. rewrite Rmult_1_l. exact Hy.
  - cbn [square_chain].
    replace (2 ^ S n * y) with (2 ^ n * (2 * y)) by (cbn [pow]; ring).
    apply IH; [apply Z.div_pos; nia|].
    assert (HsR : 0 < IZR scale) by (apply IZR_lt; exact Hs).
    assert (HaR : 0 <= IZR a / IZR scale).
    { apply Rmult_le_pos; [apply IZR_le; exact Ha|].
      left. apply Rinv_0_lt_compat. exact HsR. }
    replace (2 * y) with (y + y) by ring. rewrite exp_plus.
    apply Rle_trans with (IZR a / IZR scale * (IZR a / IZR scale));
      [|apply Rmult_le_compat; assumption].
    pose proof (Z.mul_div_le (a * a) scale Hs) as Hd.
    apply IZR_le in Hd. rewrite !mult_IZR in Hd.
    apply Rmult_le_reg_r with (IZR scale * IZR scale);
      [apply Rmult_lt_0_compat; assumption|].
    replace (IZR (a * a / scale) / IZR scale * (IZR scale * IZR scale))
      with (IZR scale * IZR (a * a / scale)) by (field; lra).
    replace (IZR a / IZR scale * (IZR a / IZR scale)
             * (IZR scale * IZR scale))
      with (IZR a * IZR a) by (field; lra).
    exact Hd.
Qed.

Lemma exp_upper_of_neg (x l u : R) :
  0 < l -> l <= exp (Ropp x) -> 1 <= l * u -> exp x <= u.
Proof.
  intros Hl H Hu. rewrite exp_Ropp in H.
  pose proof (exp_pos x) as Hp.
  assert (Hi : 0 < / exp x) by (apply Rinv_0_lt_compat; exact Hp).
  assert (He : / exp x * exp x = 1) by (apply Rinv_l; lra).
  nra.
Qed.

(** [exp] at [1024 * y] from below, by ten squarings of [1 + y] carried
    to twelve decimals. *)
Lemma exp_lower_chain (a : Z) (y : R) :
  (0 <= a)%Z -> IZR a / 1e12 <= 1 + y ->
  IZR (square_chain 1000000000000 a 10) / 1e12 <= exp (1024 * y).
Proof.
  intros Ha Hy.
  replace 1024 with (2 ^ 10) by (cbn [pow]; lra).
  replace 1e12 with (IZR 1000000000000) in * by lra.
  apply square_chain_sound; [lia | exact Ha |].
  eapply Rle_trans; [exact Hy | apply exp_ineq1_le].
Qed.

Lemma exp_01_lower : 1.1051 <= exp 0.1.
Proof.
  pose proof (exp_lower_chain 1000097656250 (0.1 / 1024)) as H.
  replace (square_chain 1000000000000 1000097656250 10) with 1105165521306%Z
    in H by (vm_compute; reflexivity).
  replace (1024 * (0.1 / 1024)) with 0.1 in H by lra.
  assert (H' := H ltac:(lia) ltac:(lra)). lra.
Qed.

Lemma exp_01_upper : exp 0.1 <= 1.1052.
Proof.
  pose proof (exp_lower_chain 999902343750 (- 0.1 / 1024)) as H.
  replace (square_chain 1000000000000 999902343750 10) with 904832999115%Z
    in H by (vm_compute; reflexivity).
  replace (1024 * (- 0.1 / 1024)) with (Ropp 0.1) in H by lra.
  assert (H' := H ltac:(lia) ltac:(lra)).
  apply exp_upper_of_neg with (l := 0.9048329); lra.
Qed.

Lemma exp_12_lower : 3.3177 <= exp 1.2.
Proof.
  pose proof (exp_lower_chain 1001171875000 (1.2 / 1024)) as H.
  replace (square_chain 1000000000000 1001171875000 10) with 3317785106356%Z
    in H by (vm_compute; reflexivity).
  replace (1024 * (1.2 / 1024)) with 1.2 in H by lra.
  assert (H' := H ltac:(lia) ltac:(lra)). lra.
Qed.

Lemma exp_12_upper : exp 1.2 <= 3.3226.
Proof.
  pose proof (exp_lower_chain 998828125000 (- 1.2 / 1024)) as H.
  replace (square_chain 1000000000000 998828125000 10) with 300982343592%Z
    in H by (vm_compute; reflexivity).
  replace (1024 * (- 1.2 / 1024)) with (Ropp 1.2) in H by lra.
  assert (H' := H ltac:(lia) ltac:(lra)).
  apply exp_upper_of_neg with (l := 0.3009823); lra.
Qed.

Lemma sigmoid_bounds (x : R) : 0 < _sigmoid x < 1.
Proof.
  unfold _sigmoid. pose proof (exp_pos (- x)) as Hp.
  split.
  - apply Rdiv_lt_0_compat; lra.
  - apply Rmult_lt_reg_r with (1 + exp (- x)); [lra|].
    unfold Rdiv. rewrite Rmult_assoc, Rinv_l by lra. lra.
Qed.

Lemma sigmoid_le (x y : R) : x <= y -> _sigmoid x <= _sigmoid y.
Proof.
  intros Hxy. unfold _sigmoid, Rdiv. rewrite !Rmult_1_l.
  pose proof (exp_pos (- x)). pose proof (exp_pos (- y)).
  apply Rinv_le_contravar; [lra|].
  apply Rplus_le_compat_l.
  destruct (Req_dec x y) as [->|Hne]; [lra|].
  left. apply exp_increasing. lra.
Qed.

Lemma sigmoid_lt (x y : R) : x < y -> _sigmoid x < _sigmoid y.
Proof.
  intros Hxy. unfold _sigmoid, Rdiv. rewrite !Rmult_1_l.
  pose proof (exp_pos (- x)). pose proof (exp_pos (- y)).
  apply Rinv_lt_contravar; [apply Rmult_lt_0_compat; lra|].
  apply Rplus_lt_compat_l, exp_increasing. lra.
Qed.

Lemma clip_sigmoid (x : R) : clip 0 1 (_sigmoid x) = _sigmoid x.
Proof.
  pose proof (sigmoid_bounds x). unfold clip.
  rewrite Rmax_left by lra. apply Rmin_left. lra.
Qed.

Lemma round_half_even_bounds (x : R) :
  IZR (round_half_even x) - 1 / 2 <= x <= IZR (round_half_even x) + 1 / 2.
Proof.
  unfold round_half_even. pose proof (Zfloor_bound x) as Hf.
  destruct (total_order_T (x - IZR (Zfloor x)) (1 / 2)) as [[Hlt|Heq]|Hgt].
  - lra.
  - destruct (Z.even (Zfloor x)); [lra|]. rewrite plus_IZR. lra.
  - rewrite plus_IZR. lra.
Qed.

Lemma round_half_even_floor (x : R) :
  (Zfloor x <= round_half_even x <= Zfloor x + 1)%Z.
Proof.
  unfold round_half_even.
  destruct (total_order_T (x - IZR (Zfloor x)) (1 / 2)) as [[Hlt|Heq]|Hgt];
    [| destruct (Z.even (Zfloor x)) |]; lia.
Qed.

Lemma round_half_even_mono (x y : R) :
  x <= y -> (round_half_even x <= round_half_even y)%Z.
Proof.
  intros Hxy.
  destruct (Z_le_gt_dec (round_half_even x) (round_half_even y)) as [H|H];
    [exact H|exfalso].
  pose proof (round_half_even_bounds x) as Hx.
  pose proof (round_half_even_bounds y) as Hy.
  assert (H1 : (round_half_even y + 1 <= round_half_even x)%Z) by lia.
  apply IZR_le in H1. rewrite plus_IZR in H1.
  assert (Heq : x = y) by lra. subst y. lia.
Qed.

Lemma round_mono (x y : R) (n : nat) : x <= y -> round x n <= round y n.
Proof.
  intros Hxy. unfold round.
  assert (Hp : 0 < 10 ^ n) by (apply pow_lt; lra).
  apply Rmult_le_compat_r; [left; apply Rinv_0_lt_compat; exact Hp|].
  apply IZR_le, round_half_even_mono.
  apply Rmult_le_compat_r; lra.
Qed.

(** A value whose scaled image lies strictly within a half of an integer
    rounds to that integer. *)
Lemma round_half_even_near (x : R) (k : Z) :
  IZR k - 1 / 2 < x < IZR k + 1 / 2 -> round_half_even x = k.
Proof.
  intros Hk. pose proof (round_half_even_bounds x) as Hb.
  assert (H1 : IZR (round_half_even x) < IZR k + 1) by lra.
  assert (H2 : IZR k < IZR (round_half_even x) + 1) by lra.
  rewrite <- plus_IZR in H1, H2. apply lt_IZR in H1, H2. lia.
Qed.

Lemma round_half_even_ge (x : R) (k : Z) :
  IZR k <= x -> (k <= round_half_even x)%Z.
Proof.
  intros Hk. pose proof (round_half_even_floor x).
  pose proof (Zfloor_lub k x Hk). lia.
Qed.

Lemma Rsum_nonneg (l : list R) : Forall (Rle 0) l -> 0 <= Rsum l.
Proof.
  induction 1 as [|x l Hx _ IH]; simpl; lra.
Qed.

Lemma Rsum_le {A} (f g : A -> R) (l : list A) :
  Forall (fun a => f a <= g a) l -> Rsum (map f l) <= Rsum (map g l).
Proof.
  induction 1 as [|a l Ha _ IH]; simpl; lra.
Qed.

Lemma clip_task_clipped (t : Task) : clipped (clip_task t).
Proof.
  split; simpl; [lia | apply Rmax_r].
Qed.

Lemma Forall_clipped (l : list Task) : Forall clipped (map clip_task l).
Proof.
  apply Forall_map, Forall_forall. intros t _. apply clip_task_clipped.
Qed.

Lemma competing_hours_nonneg (out : list Task) (row : Task) :
  Forall clipped out -> 0 <= competing_hours out row.
Proof.
  intros Hout. unfold competing_hours. apply Rsum_nonneg.
  apply Forall_map. apply Forall_forall. intros t Ht.
  apply list_elem_of_filter in Ht as [_ Ht].
  rewrite Forall_forall in Hout. apply (Hout t Ht).
Qed.

Lemma div_antitone (a1 a2 b1 b2 : R) :
  0 <= a2 <= a1 -> 0 < b1 <= b2 -> a2 / b2 <= a1 / b1.
Proof.
  intros Ha Hb. apply Rle_trans with (a2 / b1).
  - unfold Rdiv. apply Rmult_le_compat_l; [lra|].
    apply Rinv_le_contravar; lra.
  - unfold Rdiv. apply Rmult_le_compat_r; [|lra].
    left. apply Rinv_0_lt_compat. lra.
Qed.

Lemma risk_score_antitone (out : list Task) (h : Z) (c1 c2 : R) (t : Task) :
  Forall clipped out -> clipped t -> (0 <= h)%Z -> 0 < c1 <= c2 ->
  risk_score (risk_row out c2 h t) <= risk_score (risk_row out c1 h t).
Proof.
  intros Hout [Hd He] Hh Hc. cbn [risk_score risk_row].
  pose proof (competing_hours_nonneg out t Hout) as HS.
  assert (Hw : 0 <= IZR (Z.min (days_left t) h)) by (apply IZR_le; lia).
  set (w := IZR (Z.min (days_left t) h)) in *.
  assert (Ho : Rmax (- (w * c2 - est_hours t)) 0 / (c2 + 1e-9)
               <= Rmax (- (w * c1 - est_hours t)) 0 / (c1 + 1e-9)).
  { apply div_antitone; [|lra]. split; [apply Rmax_r|].
    apply Rle_max_compat_r. nra. }
  assert (Hp : _competition_pressure out t (w * c2)
               <= _competition_pressure out t (w * c1)).
  { unfold _competition_pressure. apply Rle_max_compat_l.
    apply Rplus_le_compat_r. apply div_antitone; [lra|]. nra. }
  unfold w_overload, w_competition, w_urgency, w_dep, bias. lra.
Qed.

Lemma failure_probability_antitone
    (out : list Task) (h : Z) (c1 c2 : R) (t : Task) :
  Forall clipped out -> clipped t -> (0 <= h)%Z -> 0 < c1 <= c2 ->
  failure_probability (risk_row out c2 h t)
  <= failure_probability (risk_row out c1 h t).
Proof.
  intros Hout Ht Hh Hc.
  pose proof (risk_score_antitone out h c1 c2 t Hout Ht Hh Hc) as Hs.
  cbn [risk_score failure_probability risk_row] in *.
  rewrite !clip_sigmoid. apply sigmoid_le. exact Hs.
Qed.

Lemma impact_weight_lower (out : list Task) (c : R) (h : Z) (t : Task) :
  0.1 <= impact_weight (risk_row out c h t).
Proof. cbn [impact_weight risk_row]. apply Rmax_r. Qed.


Lemma weighted_mean_le {A} (p1 p2 w : A -> R) (l : list A) :
  Forall (fun a => p2 a <= p1 a /\ 0 <= w a) l ->
  Rsum (map (fun a => p2 a * w a) l) / (Rsum (map w l) + 1e-9) * 100
  <= Rsum (map (fun a => p1 a * w a) l) / (Rsum (map w l) + 1e-9) * 100.
Proof.
  intros H.
  assert (Hw : 0 <= Rsum (map w l)).
  { apply Rsum_nonneg, Forall_map. eapply Forall_impl; [exact H|].
    simpl. tauto. }
  apply Rmult_le_compat_r; [lra|].
  apply Rmult_le_compat_r.
  { left. apply Rinv_0_lt_compat. lra. }
  apply Rsum_le. eapply Forall_impl; [exact H|].
  intros a [Hp Ha]. simpl. apply Rmult_le_compat_r; assumption.
Qed.

Lemma stress_antitone (out l : list Task) (h : Z) (c1 c2 : R) :
  Forall clipped out -> Forall clipped l -> (0 <= h)%Z -> 0 < c1 <= c2 ->
  compute_weighted_stress (map (risk_row out c2 h) l)
  <= compute_weighted_stress (map (risk_row out c1 h) l).
Proof.
  intros Hout Hl Hh Hc. unfold compute_weighted_stress.
  apply round_mono. rewrite !map_map.
  apply (weighted_mean_le
           (fun t => failure_probability (risk_row out c1 h t))
           (fun t => failure_probability (risk_row out c2 h t))
           (fun t => impact_weight (risk_row out c1 h t))).
  eapply Forall_impl; [exact Hl|]. intros t Ht. split.
  - apply failure_probability_antitone; assumption.
  - pose proof (impact_weight_lower out c1 h t). lra.
Qed.

(** *** The table computed by [compute_task_risk] *)

Lemma compute_task_risk_inr
    (df : DataFrame) (c : R) (h : Z) (out : list RiskRow) :
  compute_task_risk df c h = inr out ->
  out = map (risk_row (map clip_task (rows df)) c h)
          (map clip_task (rows df)).
Proof.
  unfold compute_task_risk.
  destruct (check_required (columns df) required_cols); [discriminate|].
  intros [= <-]. reflexivity.
Qed.


Lemma check_required_first (cols req : list string) :
  match check_required cols req with
  | None => forall col, col ∈ req -> col ∈ cols
  | Some e =>
      exists col, e = KeyError ("Missing required column: " +:+ col) /\
                  col ∈ req /\ (col ∉ cols)
  end.
Proof.
  induction req as [|c' req IH]; cbn [check_required].
  - intros col Hcol. inversion Hcol.
  - destruct (bool_decide_reflect (c' ∈ cols)) as [Hin|Hnin].
    + destruct (check_required cols req) as [e|].
      * destruct IH as (col & -> & Hreq & Hcols).
        exists col. rewrite elem_of_cons. auto.
      * intros col Hcol. apply elem_of_cons in Hcol as [->|Hcol]; auto.
    + exists c'. rewrite elem_of_cons. auto.
Qed.

(** With every required column present the risk table is produced. *)
Lemma compute_task_risk_total (df : DataFrame) (c : R) (h : Z) :
  (forall col, col ∈ required_cols -> col ∈ columns df) ->
  compute_task_risk df c h
  = inr (map (risk_row (map clip_task (rows df)) c h)
           (map clip_task (rows df))).
Proof.
  intros Hcols. unfold compute_task_risk.
  pose proof (check_required_first (columns df) required_cols) as H.
  destruct (check_required (columns df) required_cols) as [e|];
    [|reflexivity].
  destruct H as (col & _ & Hreq & Habs). exfalso. apply Habs, Hcols, Hreq.
Qed.

(** *** The forecast rows *)

(** What one forecast row records, for the clipped table [out]. *)
Lemma forecast_row_inr
    (df : DataFrame) (base : R) (h : Z) (delta : R) (r : ForecastRow) :
  forecast_row df base h delta = inr r ->
  1 <= capacity_hours_per_day r /\
  stress_index r =
    compute_weighted_stress
      (map (risk_row (map clip_task (rows df)) (capacity_hours_per_day r) h)
         (map clip_task (rows df))).
Proof.
  unfold forecast_row.
  destruct (compute_task_risk df _ h) as [e|out] eqn:E; [discriminate|].
  intros [= <-]. cbn. split; [apply Rmax_l|].
  apply compute_task_risk_inr in E. rewrite E. reflexivity.
Qed.

Lemma forecast_rows_inr
    (df : DataFrame) (base : R) (h : Z) (scen : list R)
    (rs : list ForecastRow) :
  forecast_rows df base h scen = inr rs ->
  Forall (fun r =>
            1 <= capacity_hours_per_day r /\
            stress_index r =
              compute_weighted_stress
                (map (risk_row (map clip_task (rows df))
                        (capacity_hours_per_day r) h)
                   (map clip_task (rows df)))) rs.
Proof.
  revert rs. induction scen as [|delta scen IH]; intros rs; simpl.
  - intros [= <-]. constructor.
  - destruct (forecast_row df base h delta) as [e|r] eqn:Er; [discriminate|].
    destruct (forecast_rows df base h scen) as [e|rs'] eqn:Ers;
      [discriminate|].
    intros [= <-]. constructor.
    + eapply forecast_row_inr. exact Er.
    + apply IH. reflexivity.
Qed.

Lemma elem_of_insert_by_capacity (r x : ForecastRow) (l : list ForecastRow) :
  r ∈ insert_by_capacity x l <-> r = x \/ r ∈ l.
Proof.
  induction l as [|y l IH]; simpl.
  - rewrite list_elem_of_singleton, elem_of_nil. tauto.
  - destruct (decide _); rewrite !elem_of_cons; [tauto|].
    rewrite IH. tauto.
Qed.

Lemma elem_of_sort_by_capacity (r : ForecastRow) (l : list ForecastRow) :
  r ∈ sort_by_capacity l <-> r ∈ l.
Proof.
  induction l as [|x l IH]; simpl; [reflexivity|].
  rewrite elem_of_insert_by_capacity, elem_of_cons, IH. reflexivity.
Qed.

Lemma insert_by_capacity_sorted (x : ForecastRow) (l : list ForecastRow) :
  StronglySorted
    (fun a b => capacity_hours_per_day a <= capacity_hours_per_day b) l ->
  StronglySorted
    (fun a b => capacity_hours_per_day a <= capacity_hours_per_day b)
    (insert_by_capacity x l).
Proof.
  induction 1 as [|y l Hs IH Hy]; simpl.
  - repeat constructor.
  - destruct (decide _) as [Hle|Hgt].
    + constructor; [constructor; assumption|].
      constructor; [exact Hle|].
      eapply Forall_impl; [exact Hy|]. simpl. intros. lra.
    + constructor; [exact IH|].
      apply Forall_forall. intros z Hz.
      rewrite elem_of_insert_by_capacity in Hz. destruct Hz as [->|Hz].
      * apply Rnot_le_gt in Hgt. lra.
      * rewrite Forall_forall in Hy. apply Hy, Hz.
Qed.

Lemma sort_by_capacity_sorted (l : list ForecastRow) :
  StronglySorted
    (fun a b => capacity_hours_per_day a <= capacity_hours_per_day b)
    (sort_by_capacity l).
Proof.
  induction l as [|x l IH]; simpl; [constructor|].
  apply insert_by_capacity_sorted, IH.
Qed.

Lemma forecast_system_risk_inr
    (df : DataFrame) (base : R) (h : Z) (scen : option (list R))
    (fc : list ForecastRow) :
  forecast_system_risk df base h scen = inr fc ->
  exists rs,
    forecast_rows df base h (default default_scenarios scen) = inr rs /\
    fc = sort_by_capacity rs.
Proof.
  unfold forecast_system_risk.
  destruct (forecast_rows df base h _) as [e|[|r rs]]; try discriminate.
  intros [= <-]. eexists. split; reflexivity.
Qed.

Lemma StronglySorted_impl_elem {A} (P Q : A -> A -> Prop) (l : list A) :
  (forall a b, a ∈ l -> b ∈ l -> P a b -> Q a b) ->
  StronglySorted P l -> StronglySorted Q l.
Proof.
  intros HPQ Hs. induction Hs as [|x l Hs IH Hx]; constructor.
  - apply IH. intros a b Ha Hb. apply HPQ; apply elem_of_cons; tauto.
  - apply Forall_forall. intros b Hb. rewrite Forall_forall in Hx.
    apply HPQ; [apply elem_of_cons; tauto | apply elem_of_cons; tauto |].
    apply Hx, Hb.
Qed.

(** C1.  With the task table and the horizon (not negative) fixed, a
    larger positive [available_hours_per_day] never raises the
    [failure_probability] of a row; and the forecast table comes out sorted
    by [capacity_hours_per_day] with a [stress_index] column that never
    rises along it. *)
Theorem C1_capacity_monotone (df : DataFrame) (h : Z) :
  (0 <= h)%Z ->
  (forall (c1 c2 : R) (out1 out2 : list RiskRow),
     0 < c1 <= c2 ->
     compute_task_risk df c1 h = inr out1 ->
     compute_task_risk df c2 h = inr out2 ->
     Forall2 (fun r1 r2 =>
                task r1 = task r2 /\
                failure_probability r2 <= failure_probability r1)
       out1 out2) /\
  (forall (base : R) (scen : option (list R)) (fc : list ForecastRow),
     forecast_system_risk df base h scen = inr fc ->
     StronglySorted
       (fun a b =>
          capacity_hours_per_day a <= capacity_hours_per_day b /\
          stress_index b <= stress_index a) fc /\
     (forall a b, a ∈ fc -> b ∈ fc ->
        capacity_hours_per_day a <= capacity_hours_per_day b ->
        stress_index b <= stress_index a)).
Proof.
  intros Hh. pose proof (Forall_clipped (rows df)) as Hcl. split.
  - intros c1 c2 out1 out2 Hc H1 H2.
    apply compute_task_risk_inr in H1, H2. subst out1 out2.
    apply Forall2_fmap, Forall_Forall2_diag.
    eapply Forall_impl; [exact Hcl|]. intros t Ht. split; [reflexivity|].
    apply failure_probability_antitone; assumption.
  - intros base scen fc Hfc.
    apply forecast_system_risk_inr in Hfc as (rs & Hrs & ->).
    apply forecast_rows_inr in Hrs. rewrite Forall_forall in Hrs.
    assert (Hpair : forall a b,
              a ∈ sort_by_capacity rs -> b ∈ sort_by_capacity rs ->
              capacity_hours_per_day a <= capacity_hours_per_day b ->
              stress_index b <= stress_index a).
    { intros a b Ha Hb Hab.
      rewrite elem_of_sort_by_capacity in Ha, Hb.
      destruct (Hrs a Ha) as [Ha1 ->]. destruct (Hrs b Hb) as [Hb1 ->].
      apply stress_antitone; try assumption. lra. }
    split; [|exact Hpair].
    eapply StronglySorted_impl_elem; [|apply sort_by_capacity_sorted].
    intros a b Ha Hb Hab. split; [exact Hab|]. apply Hpair; assumption.
Qed.

(** *** Two constants *)

Lemma check_required_scenario :
  check_required required_cols required_cols = None.
Proof. reflexivity. Qed.

Lemma sigmoid_01_approx : 0.47501 < _sigmoid (-0.1) < 0.47504.
Proof.
  unfold _sigmoid. replace (- -0.1) with 0.1 by lra.
  pose proof exp_01_lower as Hl. pose proof exp_01_upper as Hu.
  split.
  - apply Rmult_lt_reg_r with (1 + exp 0.1); [lra|].
    unfold Rdiv. rewrite Rmult_assoc, Rinv_l by lra. lra.
  - apply Rmult_lt_reg_r with (1 + exp 0.1); [lra|].
    unfold Rdiv. rewrite Rmult_assoc, Rinv_l by lra. lra.
Qed.

Lemma sigmoid_12_approx : 0.2313 < _sigmoid (-1.2) < 0.2317.
Proof.
  unfold _sigmoid. replace (- -1.2) with 1.2 by lra.
  pose proof exp_12_lower as Hl. pose proof exp_12_upper as Hu.
  split.
  - apply Rmult_lt_reg_r with (1 + exp 1.2); [lra|].
    unfold Rdiv. rewrite Rmult_assoc, Rinv_l by lra. lra.
  - apply Rmult_lt_reg_r with (1 + exp 1.2); [lra|].
    unfold Rdiv. rewrite Rmult_assoc, Rinv_l by lra. lra.
Qed.

(** *** The scenario table *)

Lemma clip_scenario_task (n : string) :
  clip_task (scenario_task n) = scenario_task n.
Proof.
  unfold clip_task, scenario_task. cbn [name days_left est_hours
    strategic_importance business_impact dependency_risk].
  f_equal. apply Rmax_left. lra.
Qed.

Lemma compute_scenario (n : string) (c : R) (h : Z) :
  compute_task_risk (scenario_table n) c h
  = inr [risk_row [scenario_task n] c h (scenario_task n)].
Proof.
  unfold compute_task_risk, scenario_table. cbn [columns rows].
  rewrite check_required_scenario. cbn [map].
  rewrite clip_scenario_task. reflexivity.
Qed.

Lemma competing_hours_scenario (n : string) :
  competing_hours [scenario_task n] (scenario_task n) = 4.
Proof.
  unfold competing_hours. rewrite filter_cons_True by (cbn; lia).
  rewrite filter_nil. cbn [map Rsum fold_right est_hours scenario_task].
  lra.
Qed.

Ltac scenario_fields :=
  cbn [task deadline_window_days capacity_before_deadline slack_hours
       overload_severity overload_norm urgency competition_pressure dep
       impact_weight risk_score failure_probability risk_row
       name days_left est_hours strategic_importance business_impact
       dependency_risk scenario_task];
  unfold _competition_pressure; rewrite ?competing_hours_scenario;
  change (Z.min 1 7) with 1%Z.

Lemma risk_score_scenario_A (n : string) :
  risk_score (risk_row [scenario_task n] 6 7 (scenario_task n)) = -0.1.
Proof.
  scenario_fields.
  rewrite (Rmax_right (- (1 * 6 - 4)) 0) by lra.
  rewrite (Rmax_left 0 (4 / (1 * 6 + 1e-9) - 1)).
  - unfold bias, w_overload, w_competition, w_urgency, w_dep. lra.
  - assert (4 / (1 * 6 + 1e-9) < 1); [|lra].
    apply Rmult_lt_reg_r with (1 * 6 + 1e-9); [lra|].
    unfold Rdiv. rewrite Rmult_assoc, Rinv_l by lra. lra.
Qed.

(** C2.  End-to-end scenario A: for the single task, under any name, at 6
    hours per day over a horizon of 7 days, the risk model returns one row
    with a window of 1 day, 6 hours of capacity before the deadline, 2
    hours of slack, no overload, urgency 1, no competition pressure, risk
    score [-1.2 + 1.1 = -0.1] and failure probability [sigmoid(-0.1)],
    which is 0.475 to three decimals. *)
Theorem C2_scenario_A (n : string) :
  exists r : RiskRow,
    compute_task_risk (scenario_table n) 6 7 = inr [r] /\
    deadline_window_days r = 1%Z /\
    capacity_before_deadline r = 6 /\
    slack_hours r = 2 /\
    overload_norm r = 0 /\
    urgency r = 1 /\
    competition_pressure r = 0 /\
    risk_score r = -1.2 + 1.1 /\
    risk_score r = -0.1 /\
    failure_probability r = _sigmoid (-0.1) /\
    Rabs (failure_probability r - 0.475) < 0.0005.
Proof.
  eexists. split; [apply compute_scenario|].
  pose proof (risk_score_scenario_A n) as Hscore.
  assert (Hfp : failure_probability
                  (risk_row [scenario_task n] 6 7 (scenario_task n))
                = _sigmoid (-0.1)).
  { cbn [failure_probability risk_row]. cbn [risk_score risk_row] in Hscore.
    rewrite Hscore. apply clip_sigmoid. }
  rewrite Hscore, Hfp. scenario_fields.
  rewrite (Rmax_right (- (1 * 6 - 4)) 0) by lra.
  repeat split; try lra.
  - apply Rmax_left.
    assert (4 / (1 * 6 + 1e-9) < 1); [|lra].
    apply Rmult_lt_reg_r with (1 * 6 + 1e-9); [lra|].
    unfold Rdiv. rewrite Rmult_assoc, Rinv_l by lra. lra.
  - pose proof sigmoid_01_approx. apply Rabs_def1; lra.
Qed.


(** *** Competition pressure *)

Lemma window_hours_risk_rows (out l : list Task) (c : R) (h : Z) (t : Task) :
  window_hours (map (risk_row out c h) l) (risk_row out c h t)
  = competing_hours l t.
Proof.
  unfold window_hours, competing_hours. cbn [task risk_row].
  induction l as [|t' l IH]; [reflexivity|].
  cbn [map]. rewrite !filter_cons. cbn [task risk_row].
  destruct (decide (days_left t' <= days_left t)%Z); cbn [map Rsum fold_right].
  - unfold Rsum in IH. rewrite IH. reflexivity.
  - exact IH.
Qed.

Lemma competing_hours_self (out : list Task) (t : Task) :
  Forall clipped out -> t ∈ out -> est_hours t <= competing_hours out t.
Proof.
  intros Hout Hin. unfold competing_hours.
  induction Hout as [|t' l [_ He] Hl IH]; [inversion Hin|].
  rewrite filter_cons.
  assert (Hrest : 0 <= Rsum (map est_hours
            (filter (fun t0 => (days_left t0 <= days_left t)%Z) l))).
  { apply (competing_hours_nonneg l t Hl). }
  apply elem_of_cons in Hin as [->|Hin].
  - rewrite decide_True by lia. cbn [map Rsum fold_right].
    unfold Rsum in Hrest. lra.
  - specialize (IH Hin).
    destruct (decide _); cbn [map Rsum fold_right]; unfold Rsum in *; lra.
Qed.

(** C3 fails as stated: in scenario B (the scenario task at 3 hours per
    day) the pressure is [4 / (3 + 1e-9) - 1], not [4 / 3 - 1]. *)
Lemma C3_counterexample :
  exists r : RiskRow,
    compute_task_risk (scenario_table "A") 3 7 = inr [r] /\
    competition_pressure r <> spec_competition_pressure [r] r.
Proof.
  eexists. split; [apply compute_scenario|].
  unfold spec_competition_pressure.
  pose proof (window_hours_risk_rows [scenario_task "A"] [scenario_task "A"]
                3 7 (scenario_task "A")) as Hw.
  cbn [map] in Hw. rewrite Hw. clear Hw.
  scenario_fields.
  assert (H1 : 4 / (1 * 3 + 1e-9) * (1 * 3 + 1e-9) = 4) by (field; lra).
  assert (H2 : 4 / (1 * 3) * 3 = 4) by (field; lra).
  assert (H3 : 1 < 4 / (1 * 3 + 1e-9)).
  { apply Rmult_lt_reg_r with (1 * 3 + 1e-9); [lra|]. rewrite H1. lra. }
  rewrite !Rmax_right by lra. nra.
Qed.

(** C3, amended.  For each row of the output, the pressure is
    [max(0, hours / (capacity_before_deadline + 1e-9) - 1)], where [hours]
    sums [est_hours] over the rows whose [days_left] is at most the row's
    own; the row itself is counted, and the pressure is 0 whenever the
    hours do not exceed the window's capacity. *)
Theorem C3_competition_pressure
    (df : DataFrame) (c : R) (h : Z) (out : list RiskRow) (r : RiskRow) :
  compute_task_risk df c h = inr out ->
  r ∈ out ->
  competition_pressure r
    = Rmax 0 (window_hours out r / (capacity_before_deadline r + 1e-9) - 1)
  /\ est_hours (task r) <= window_hours out r
  /\ (window_hours out r <= capacity_before_deadline r ->
      competition_pressure r = 0).
Proof.
  intros Hout Hr. apply compute_task_risk_inr in Hout. subst out.
  apply list_elem_of_fmap in Hr as (t & -> & Ht).
  rewrite window_hours_risk_rows.
  pose proof (Forall_clipped (rows df)) as Hcl.
  pose proof (competing_hours_self _ t Hcl Ht) as Hself.
  pose proof (competing_hours_nonneg _ t Hcl) as Hnn.
  cbn [competition_pressure capacity_before_deadline task risk_row].
  unfold _competition_pressure.
  split; [reflexivity|]. split; [exact Hself|].
  set (cb := IZR (Z.min (days_left t) h) * c) in *.
  set (S := competing_hours (map clip_task (rows df)) t) in *.
  intros Hle. apply Rmax_left.
  assert (Hd : 0 < cb + 1e-9) by lra.
  assert (S / (cb + 1e-9) < 1); [|lra].
  apply Rmult_lt_reg_r with (cb + 1e-9); [exact Hd|].
  unfold Rdiv. rewrite Rmult_assoc, Rinv_l by lra. lra.
Qed.

Lemma C3_competition_pressure_witness :
  let r := risk_row [scenario_task "A"] 3 7 (scenario_task "A") in
  competition_pressure r
    = Rmax 0 (window_hours [r] r / (capacity_before_deadline r + 1e-9) - 1)
  /\ est_hours (task r) <= window_hours [r] r
  /\ (window_hours [r] r <= capacity_before_deadline r ->
      competition_pressure r = 0).
Proof.
  intros r.
  apply (C3_competition_pressure (scenario_table "A") 3 7 [r] r).
  - apply compute_scenario.
  - apply list_elem_of_singleton. reflexivity.
Defined.

(** *** Ranges *)

(** C4.  On a valid task table (both ratings of every task in 1-5) every
    output row has its [failure_probability] in [0, 1] and its
    [impact_weight] in [0.1, 1.0]. *)
Theorem C4_ranges
    (df : DataFrame) (c : R) (h : Z) (out : list RiskRow) :
  Forall valid_task (rows df) ->
  compute_task_risk df c h = inr out ->
  Forall (fun r =>
            0 <= failure_probability r <= 1 /\
            0.1 <= impact_weight r <= 1.0) out.
Proof.
  intros Hvalid Hout. apply compute_task_risk_inr in Hout. subst out.
  rewrite map_map. apply Forall_map.
  eapply Forall_impl; [exact Hvalid|].
  intros t [[Hs1 Hs2] [Hb1 Hb2]].
  cbn [failure_probability impact_weight risk_row strategic_importance
       business_impact clip_task].
  split.
  - rewrite clip_sigmoid. pose proof (sigmoid_bounds
      (risk_score (risk_row (map clip_task (rows df)) c h (clip_task t)))) as H.
    cbn [risk_score risk_row] in H. lra.
  - apply IZR_le in Hs1, Hs2, Hb1, Hb2.
    split; [apply Rmax_r|]. apply Rmax_lub; lra.
Qed.

Lemma C4_ranges_witness :
  Forall (fun r =>
            0 <= failure_probability r <= 1 /\
            0.1 <= impact_weight r <= 1.0)
    [risk_row [scenario_task "A"] 6 7 (scenario_task "A")].
Proof.
  apply (C4_ranges (scenario_table "A") 6 7).
  - repeat constructor; cbn; lia.
  - apply compute_scenario.
Defined.


(** *** Stress of a single task *)

Lemma round_error (x : R) : - 0.05 <= round x 1 - x <= 0.05.
Proof.
  unfold round. pose proof (round_half_even_bounds (x * 10 ^ 1)) as Hb.
  replace (10 ^ 1) with 10 in * by (simpl; lra).
  lra.
Qed.

Lemma round_near (x : R) (k : Z) :
  IZR k - 1 / 2 < x * 10 < IZR k + 1 / 2 -> round x 1 = IZR k / 10.
Proof.
  intros Hk. unfold round. replace (10 ^ 1) with 10 by (simpl; lra).
  rewrite (round_half_even_near _ k Hk). reflexivity.
Qed.

Lemma round_ge (x : R) (k : Z) : IZR k <= x * 10 -> IZR k / 10 <= round x 1.
Proof.
  intros Hk. unfold round. replace (10 ^ 1) with 10 by (simpl; lra).
  apply round_half_even_ge, IZR_le in Hk. lra.
Qed.

Lemma stress_single (r : RiskRow) :
  compute_weighted_stress [r]
  = round (100 * failure_probability r
           * (impact_weight r / (impact_weight r + 1e-9))) 1.
Proof.
  unfold compute_weighted_stress. cbn [map Rsum fold_right].
  f_equal. rewrite !Rplus_0_r. unfold Rdiv. ring.
Qed.

Lemma failure_probability_scenario_A (n : string) :
  failure_probability (risk_row [scenario_task n] 6 7 (scenario_task n))
  = _sigmoid (-0.1).
Proof.
  pose proof (risk_score_scenario_A n) as Hscore.
  cbn [failure_probability risk_row]. cbn [risk_score risk_row] in Hscore.
  rewrite Hscore. apply clip_sigmoid.
Qed.

Lemma impact_weight_scenario (n : string) (c : R) (h : Z) :
  impact_weight (risk_row [scenario_task n] c h (scenario_task n)) = 0.6.
Proof.
  cbn [impact_weight risk_row strategic_importance business_impact
       scenario_task].
  rewrite Rmax_left by lra. lra.
Qed.

(** C7 fails as stated: the one task of scenario A has failure probability
    [sigmoid(-0.1)], above 0.47501, and the stress of its table is 47.5. *)
Lemma C7_counterexample :
  exists r : RiskRow,
    compute_task_risk (scenario_table "A") 6 7 = inr [r] /\
    compute_weighted_stress [r] = 47.5 /\
    compute_weighted_stress [r] <> 100 * failure_probability r.
Proof.
  eexists. split; [apply compute_scenario|].
  rewrite stress_single, failure_probability_scenario_A,
    impact_weight_scenario.
  pose proof sigmoid_01_approx as Hs.
  assert (H : 0.6 / (0.6 + 1e-9) * (0.6 + 1e-9) = 0.6) by (field; lra).
  assert (H1 : 0.9999 < 0.6 / (0.6 + 1e-9) < 1) by nra.
  rewrite (round_near _ 475) by nra.
  split; lra.
Qed.

(** C7, amended.  The stress of a one-task table is
    [100 * failure_probability * w / (w + 1e-9)] rounded to one decimal,
    [w] being the task's [impact_weight]; for the weights and
    probabilities the risk model produces it is within 0.050001 of
    [100 * failure_probability]. *)
Theorem C7_single_task_stress (r : RiskRow) :
  0.1 <= impact_weight r ->
  0 <= failure_probability r <= 1 ->
  compute_weighted_stress [r]
    = round (100 * failure_probability r
             * (impact_weight r / (impact_weight r + 1e-9))) 1
  /\ Rabs (compute_weighted_stress [r] - 100 * failure_probability r)
     <= 0.050001.
Proof.
  intros Hw Hp. split; [apply stress_single|].
  rewrite stress_single.
  set (p := failure_probability r) in *. set (w := impact_weight r) in *.
  pose proof (round_error (100 * p * (w / (w + 1e-9)))) as Hr.
  assert (Hq : w / (w + 1e-9) * (w + 1e-9) = w) by (field; lra).
  assert (Hq1 : 1 - 1e-8 <= w / (w + 1e-9) <= 1) by nra.
  apply Rabs_le. nra.
Qed.

Lemma C7_single_task_stress_witness :
  compute_weighted_stress [single_row 0.1234 1]
    = round (100 * 0.1234 * (1 / (1 + 1e-9))) 1
  /\ Rabs (compute_weighted_stress [single_row 0.1234 1] - 100 * 0.1234)
     <= 0.050001.
Proof.
  apply (C7_single_task_stress (single_row 0.1234 1));
    cbn [impact_weight failure_probability single_row]; lra.
Defined.

(** *** The missing-column error *)

(** C8.  When a required column [col] is absent, [compute_task_risk]
    returns no table: it raises the error whose message names an absent
    required column, and names [col] itself when [col] is the only one
    absent - in particular for [col = "business_impact"]. *)
Theorem C8_missing_column (df : DataFrame) (c : R) (h : Z) (col : string) :
  col ∈ required_cols ->
  col ∉ columns df ->
  (exists col',
     col' ∈ required_cols /\ (col' ∉ columns df) /\
     compute_task_risk df c h
     = inl (KeyError ("Missing required column: " +:+ col'))) /\
  ((forall col', col' ∈ required_cols -> col' <> col -> col' ∈ columns df) ->
   compute_task_risk df c h
   = inl (KeyError ("Missing required column: " +:+ col))).
Proof.
  intros Hreq Habs. unfold compute_task_risk.
  pose proof (check_required_first (columns df) required_cols) as H.
  destruct (check_required (columns df) required_cols) as [e|].
  - destruct H as (col' & -> & Hreq' & Habs'). split.
    + exists col'. auto.
    + intros Honly. destruct (decide (col' = col)) as [->|Hne];
        [reflexivity|].
      exfalso. apply Habs'. apply Honly; assumption.
  - exfalso. apply Habs, H, Hreq.
Qed.

Lemma C8_missing_column_witness :
  compute_task_risk
    {| columns := ["name"; "days_left"; "est_hours";
                   "strategic_importance"; "dependency_risk"]%string;
       rows := [scenario_task "A"] |} 6 7
  = inl (KeyError "Missing required column: business_impact").
Proof.
  refine (proj2 (C8_missing_column _ 6 7 "business_impact" _ _) _).
  - compute_done.
  - compute_done.
  - cbn [columns]. unfold required_cols. intros col' H Hne.
    repeat (apply elem_of_cons in H as [->|H];
            [first [congruence | compute_done]|]).
    inversion H.
Defined.


(** *** The baseline probability *)

Lemma risk_score_above_bias (out : list Task) (c : R) (h : Z) (t : Task) :
  0 < c -> clipped t -> -1.2 < risk_score (risk_row out c h t).
Proof.
  intros Hc [Hd He]. cbn [risk_score risk_row].
  assert (Ho : 0 <= Rmax (- (IZR (Z.min (days_left t) h) * c - est_hours t)) 0
                    / (c + 1e-9)).
  { apply Rmult_le_pos; [apply Rmax_r|].
    left. apply Rinv_0_lt_compat. lra. }
  pose proof (Rmax_l 0 (competing_hours out t
                / (IZR (Z.min (days_left t) h) * c + 1e-9) - 1)) as Hp.
  assert (Hu : 0 < 1 / IZR (days_left t)).
  { apply Rdiv_lt_0_compat; [lra|]. apply IZR_lt. lia. }
  assert (Hdep : 0 <= IZR (if dependency_risk t then 1 else 0))
    by (destruct (dependency_risk t); lra).
  unfold _competition_pressure, bias, w_overload, w_competition, w_urgency,
    w_dep.
  nra.
Qed.

Lemma stress_lower_bound (l : list RiskRow) :
  Forall (fun r => 0.2313 <= failure_probability r /\ 0.1 <= impact_weight r)
    l ->
  l <> [] -> 23.1 <= compute_weighted_stress l.
Proof.
  intros Hl Hne. unfold compute_weighted_stress.
  set (pw := Rsum (map (fun r => failure_probability r * impact_weight r) l)).
  set (W := Rsum (map impact_weight l)).
  assert (H : 0.2313 * W <= pw /\ 0 <= W /\ (l <> [] -> 0.1 <= W)).
  { subst pw W. clear Hne.
    induction Hl as [|r l [Hp Hw] _ (IH1 & IH2 & IH3)];
      cbn [map Rsum fold_right].
    - split; [lra|]. split; [lra|]. congruence.
    - unfold Rsum in *. split; [nra|]. split; [lra|]. intros _. lra. }
  destruct H as (H1 & H2 & H3). specialize (H3 Hne).
  replace 23.1 with (IZR 231 / 10) by lra. apply round_ge.
  assert (Hq : 0 < / (W + 1e-9)) by (apply Rinv_0_lt_compat; lra).
  assert (Hq1 : / (W + 1e-9) * (W + 1e-9) = 1) by (apply Rinv_l; lra).
  set (q := / (W + 1e-9)) in *.
  assert (Hq2 : q <= 10) by nra.
  assert (Hq3 : 0.2313 * (W * q) <= pw * q) by nra.
  assert (Hq4 : 1 - 1e-8 <= W * q) by nra.
  change (231 <= pw * q * 100 * 10). lra.
Qed.

(** C9.  At a positive capacity every row's [failure_probability] is
    strictly above [sigmoid(-1.2)], which is 0.2315 to three decimals, and
    the weighted stress of a non-empty table is at least 23.1. *)
Theorem C9_baseline_probability
    (df : DataFrame) (c : R) (h : Z) (out : list RiskRow) :
  0 < c ->
  compute_task_risk df c h = inr out ->
  Forall (fun r => _sigmoid (-1.2) < failure_probability r) out /\
  Rabs (_sigmoid (-1.2) - 0.2315) < 0.0005 /\
  (out <> [] -> 23.1 <= compute_weighted_stress out).
Proof.
  intros Hc Hout. apply compute_task_risk_inr in Hout. subst out.
  pose proof sigmoid_12_approx as Hs.
  assert (Hrows : Forall (fun r => _sigmoid (-1.2) < failure_probability r)
            (map (risk_row (map clip_task (rows df)) c h)
               (map clip_task (rows df)))).
  { apply Forall_map. eapply Forall_impl; [apply Forall_clipped|].
    intros t Ht. cbn [failure_probability risk_row].
    rewrite clip_sigmoid. apply sigmoid_lt.
    apply (risk_score_above_bias _ c h t Hc Ht). }
  split; [exact Hrows|]. split; [apply Rabs_def1; lra|].
  apply stress_lower_bound.
  rewrite Forall_forall in Hrows. apply Forall_forall. intros r Hr.
  split; [specialize (Hrows r Hr); lra|].
  apply list_elem_of_fmap in Hr as (t & -> & _). apply impact_weight_lower.
Qed.

Lemma C9_baseline_probability_witness :
  let out := [risk_row [scenario_task "A"] 6 7 (scenario_task "A")] in
  Forall (fun r => _sigmoid (-1.2) < failure_probability r) out /\
  Rabs (_sigmoid (-1.2) - 0.2315) < 0.0005 /\
  (out <> [] -> 23.1 <= compute_weighted_stress out).
Proof.
  intros out. apply (C9_baseline_probability (scenario_table "A") 6 7).
  - lra.
  - apply compute_scenario.
Defined.

Lemma C1_capacity_monotone_witness :
  (let out1 := [risk_row [scenario_task "A"] 3 7 (scenario_task "A")] in
   let out2 := [risk_row [scenario_task "A"] 6 7 (scenario_task "A")] in
   Forall2 (fun r1 r2 =>
              task r1 = task r2 /\
              failure_probability r2 <= failure_probability r1) out1 out2) /\
  (exists fc,
     forecast_system_risk (scenario_table "A") 6 7 None = inr fc /\
     StronglySorted
       (fun a b =>
          capacity_hours_per_day a <= capacity_hours_per_day b /\
          stress_index b <= stress_index a) fc).
Proof.
  destruct (C1_capacity_monotone (scenario_table "A") 7) as [Hrows Hfc];
    [lia|].
  split.
  - apply (Hrows 3 6); [lra | apply compute_scenario | apply compute_scenario].
  - eexists. split; [reflexivity|]. apply (Hfc 6 None). reflexivity.
Defined.

End RiskModelFacts.

(* ================================================================== *)
(** ** Facts about the scheduler *)
(* ================================================================== *)

Module SchedulerFacts.
Import Scheduler.
Import Lqa.
Local Open Scope Q_scope.

(** *** Rational helpers *)

Lemma Qltb_lt (x y : Q) : Qltb x y = true <-> x < y.
Proof.
  unfold Qltb. rewrite negb_true_iff, <- not_true_iff_false, Qle_bool_iff.
  split; [apply Qnot_le_lt | apply Qlt_not_le].
Qed.


Lemma Qle_bool_gt (x y : Q) : Qle_bool x y = false <-> y < x.
Proof.
  rewrite <- not_true_iff_false, Qle_bool_iff.
  split; [apply Qnot_le_lt | apply Qlt_not_le].
Qed.

Lemma round_half_even_upper (y : Q) :
  inject_Z (round_half_even y) <= y + (1 # 2).
Proof.
  unfold round_half_even.
  pose proof (Qfloor_le y) as Hl. pose proof (Qlt_floor y) as Hu.
  rewrite inject_Z_plus in Hu. change (inject_Z 1) with 1 in Hu.
  destruct (Qcompare_spec (y - inject_Z (Qfloor y)) (1 # 2)) as [He|Hlt|Hgt];
    [destruct (Z.even (Qfloor y))| |];
    rewrite ?inject_Z_plus; change (inject_Z 1) with 1; lra.
Qed.

Lemma round_half_even_small (y : Q) :
  0 <= y -> y <= 1 # 2 -> round_half_even y = 0%Z.
Proof.
  intros H0 H1. unfold round_half_even.
  assert (Hf : Qfloor y = 0%Z).
  { pose proof (Qfloor_le y) as Hl. pose proof (Qlt_floor y) as Hu.
    assert (Ha : inject_Z (Qfloor y) < inject_Z 1)
      by (change (inject_Z 1) with 1; lra).
    assert (Hb : inject_Z 0 < inject_Z (Qfloor y + 1))
      by (change (inject_Z 0) with 0; lra).
    rewrite <- Zlt_Qlt in Ha, Hb. lia. }
  rewrite Hf.
  destruct (Qcompare_spec (y - inject_Z 0) (1 # 2)) as [He|Hlt|Hgt];
    [reflexivity | reflexivity |].
  exfalso. change (inject_Z 0) with 0 in Hgt. lra.
Qed.

Lemma round_comp (x y : Q) (n : nat) : x == y -> round x n == round y n.
Proof.
  intros Hxy. unfold round.
  set (s := inject_Z (10 ^ Z.of_nat n)).
  assert (Hs : x * s == y * s) by (apply Qmult_comp; [exact Hxy | reflexivity]).
  assert (Hr : round_half_even (x * s) = round_half_even (y * s)).
  { unfold round_half_even. rewrite (Qfloor_comp _ _ Hs).
    rewrite (Qcompare_comp (x * s - inject_Z (Qfloor (y * s)))
               (y * s - inject_Z (Qfloor (y * s)))
               ltac:(apply Qplus_comp; [exact Hs | reflexivity])
               (1 # 2) (1 # 2) ltac:(reflexivity)).
    reflexivity. }
  rewrite Hr. reflexivity.
Qed.

Lemma round2_upper (x : Q) : round x 2 <= x + (1 # 200).
Proof.
  unfold round. change (inject_Z (10 ^ Z.of_nat 2)) with (100 # 1).
  pose proof (round_half_even_upper (x * (100 # 1))) as H.
  apply Qle_shift_div_r; lra.
Qed.

Lemma round2_small (x : Q) : 0 <= x -> x <= 1 # 200 -> round x 2 == 0.
Proof.
  intros H0 H1. unfold round.
  change (inject_Z (10 ^ Z.of_nat 2)) with (100 # 1).
  rewrite round_half_even_small by lra. reflexivity.
Qed.


(** *** Sums and the [remaining] dict *)

Lemma Qsum_sub {A} (f g : A -> Q) (l : list A) :
  Qsum (map (fun a => f a - g a) l) == Qsum (map f l) - Qsum (map g l).
Proof.
  induction l as [|a l IH]; cbn [map Qsum fold_right]; [lra|].
  unfold Qsum in IH. rewrite IH. lra.
Qed.

Lemma Qsum_telescope (a : nat -> Q) (n : nat) :
  Qsum (map (fun d => a (d - 1)%nat - a d) (seq 1 n)) == a 0%nat - a n.
Proof.
  induction n as [|n IH].
  - cbn. lra.
  - rewrite seq_S, map_app. cbn [map].
    assert (Happ : forall l x, Qsum (l ++ [x]) == Qsum l + x).
    { intros l x. induction l as [|y l IHl]; cbn [app Qsum fold_right];
        [lra|]. unfold Qsum in IHl. rewrite IHl. lra. }
    rewrite Happ, IH.
    replace (1 + n - 1)%nat with n by lia.
    replace (1 + n)%nat with (S n) by lia.
    lra.
Qed.

Lemma get_insert (m : gmap string Q) (k k' : string) (v : Q) :
  get (<[k := v]> m) k' = if decide (k = k') then v else get m k'.
Proof.
  unfold get. rewrite lookup_insert. destruct (decide (k = k')); reflexivity.
Qed.

(** Updating one key of a sum over distinct names. *)
Lemma Qsum_get_insert (m : gmap string Q) (k : string) (v : Q)
    (names : list string) :
  NoDup names -> k ∈ names ->
  Qsum (map (get (<[k := v]> m)) names)
  == Qsum (map (get m) names) - get m k + v.
Proof.
  intros Hnd. induction Hnd as [|n names Hn Hnd IH]; intros Hk.
  - inversion Hk.
  - cbn [map Qsum fold_right]. rewrite get_insert.
    apply elem_of_cons in Hk as [->|Hk].
    + rewrite decide_True by reflexivity.
      assert (Hrest : map (get (<[n := v]> m)) names = map (get m) names).
      { apply map_ext_in. intros n' Hn'. rewrite get_insert.
        rewrite decide_False; [reflexivity|].
        intros ->. apply Hn. apply list_elem_of_In. exact Hn'. }
      rewrite Hrest. lra.
    + rewrite decide_False by (intros ->; contradiction).
      unfold Qsum in IH. rewrite (IH Hk). lra.
Qed.

Lemma dict_of_notin (f : Row -> Q) (tasks : list Row) (m : gmap string Q)
    (k : string) :
  k ∉ map name tasks ->
  fold_left (fun m r => <[name r := f r]> m) tasks m !! k = m !! k.
Proof.
  revert m. induction tasks as [|r tasks IH]; intros m Hk; [reflexivity|].
  cbn [fold_left]. cbn [map] in Hk. rewrite not_elem_of_cons in Hk.
  destruct Hk as [Hne Hk]. rewrite (IH _ Hk).
  rewrite lookup_insert_ne by congruence. reflexivity.
Qed.

(** With distinct names the dict maps each name to its own row's value. *)
Lemma get_dict_of (f : Row -> Q) (tasks : list Row) (r : Row) :
  NoDup (map name tasks) -> r ∈ tasks -> get (dict_of f tasks) (name r) = f r.
Proof.
  unfold dict_of. generalize (∅ : gmap string Q).
  induction tasks as [|r' tasks IH]; intros m Hnd Hr; [inversion Hr|].
  cbn [map] in Hnd. apply NoDup_cons in Hnd as [Hr' Hnd].
  cbn [fold_left]. apply elem_of_cons in Hr as [->|Hr].
  - unfold get. rewrite (dict_of_notin _ _ _ _ Hr'), lookup_insert_eq.
    reflexivity.
  - apply IH; assumption.
Qed.

Lemma get_dict_of_nonneg (f : Row -> Q) (tasks : list Row) (k : string) :
  Forall (fun r => 0 <= f r) tasks -> 0 <= get (dict_of f tasks) k.
Proof.
  unfold dict_of.
  assert (H0 : 0 <= get (∅ : gmap string Q) k)
    by (unfold get; rewrite lookup_empty; cbn; lra).
  revert H0. generalize (∅ : gmap string Q).
  induction tasks as [|r tasks IH]; intros m Hm Hf; [exact Hm|].
  apply Forall_cons in Hf as [Hr Hf]. cbn [fold_left].
  apply IH; [|exact Hf]. rewrite get_insert.
  destruct (decide _); assumption.
Qed.


(** *** The scan over the tasks of one day *)

(** Whatever every possible grant preserves holds after the scan.  A grant
    happens only to a row with hours left, and takes a positive amount
    that is the smaller of the capacity left and the hours left. *)
Lemma scan_tasks_invariant
    (P : DayState -> Prop) (fp : gmap string Q) (d : Z) (tasks : list Row) :
  (forall st row,
     row ∈ tasks -> P st ->
     0 < get (remaining st) (name row) ->
     0 < Qmin (cap_left st) (get (remaining st) (name row)) ->
     P (grant fp d row
          (Qmin (cap_left st) (get (remaining st) (name row))) st)) ->
  forall st, P st -> P (scan_tasks fp d tasks st).
Proof.
  induction tasks as [|row tasks IH]; intros Hstep st Hst; [exact Hst|].
  assert (IH' : forall st, P st -> P (scan_tasks fp d tasks st)).
  { apply IH. intros st0 row0 Hin. apply Hstep. apply elem_of_cons. tauto. }
  cbn [scan_tasks].
  destruct (Qle_bool (get (remaining st) (name row)) 0) eqn:Hrem;
    [apply IH'; exact Hst|].
  destruct (days_left row <? d)%Z; [apply IH'; exact Hst|].
  apply Qle_bool_gt in Hrem.
  destruct (Qltb 0 (Qmin (cap_left st) (get (remaining st) (name row))))
    eqn:Htake.
  - apply Qltb_lt in Htake.
    assert (Hg : P (grant fp d row
                      (Qmin (cap_left st) (get (remaining st) (name row)))
                      st)).
    { apply Hstep; [apply elem_of_cons; tauto | assumption..]. }
    destruct (Qle_bool _ 0); [exact Hg | apply IH'; exact Hg].
  - destruct (Qle_bool _ 0); [exact Hst | apply IH'; exact Hst].
Qed.

(** Hours leave the [remaining] counters exactly as capacity is used up,
    and the capacity left never becomes negative. *)
Lemma scan_tasks_conserve
    (names : list string) (fp : gmap string Q) (d : Z) (tasks : list Row)
    (st : DayState) :
  NoDup names -> (forall r, r ∈ tasks -> name r ∈ names) ->
  0 <= cap_left st ->
  Qsum (map (get (remaining (scan_tasks fp d tasks st))) names)
    - cap_left (scan_tasks fp d tasks st)
  == Qsum (map (get (remaining st)) names) - cap_left st
  /\ 0 <= cap_left (scan_tasks fp d tasks st).
Proof.
  intros Hnd Hnames Hcap.
  apply (scan_tasks_invariant
           (fun st' =>
              Qsum (map (get (remaining st')) names) - cap_left st'
              == Qsum (map (get (remaining st)) names) - cap_left st
              /\ 0 <= cap_left st')).
  - intros st0 row Hin [Hsum Hc] Hrem Htake. cbn [grant remaining cap_left].
    rewrite Qsum_get_insert by (auto using Hnames).
    pose proof (Q.le_min_l (cap_left st0) (get (remaining st0) (name row))).
    split; lra.
  - split; [reflexivity | exact Hcap].
Qed.

Lemma scan_tasks_nonneg
    (fp : gmap string Q) (d : Z) (tasks : list Row) (st : DayState) :
  (forall k, 0 <= get (remaining st) k) ->
  forall k, 0 <= get (remaining (scan_tasks fp d tasks st)) k.
Proof.
  apply (scan_tasks_invariant (fun st' => forall k, 0 <= get (remaining st') k)).
  intros st0 row Hin Hall Hrem Htake k. cbn [grant remaining].
  rewrite get_insert. destruct (decide _); [|apply Hall].
  pose proof (Q.le_min_r (cap_left st0) (get (remaining st0) (name row))).
  lra.
Qed.

(** *** One day, and the days before it *)

Lemma state_after_S (df : DataFrame) (cap : Q) (tasks : list Row) (n : nat) :
  state_after df cap tasks (S n)
  = day_step (fp_lookup_of df tasks) cap tasks (state_after df cap tasks n)
      (Z.of_nat (S n)).
Proof.
  unfold state_after, run_days.
  rewrite seq_S, map_app, fold_left_app. reflexivity.
Qed.

Lemma state_after_nonneg
    (df : DataFrame) (cap : Q) (tasks : list Row) (n : nat) (k : string) :
  Forall (fun r => 0 <= est_hours r) tasks ->
  0 <= get (run_remaining (state_after df cap tasks n)) k.
Proof.
  intros Hest. revert k. induction n as [|n IH]; intros k.
  - apply get_dict_of_nonneg. exact Hest.
  - rewrite state_after_S. cbn [day_step run_remaining].
    apply scan_tasks_nonneg. exact IH.
Qed.

(** The hours that one day takes off the counters, summed over distinct
    names covering the tasks, are the capacity that the day used. *)
Lemma day_step_conserve
    (names : list string) (fp : gmap string Q) (cap : Q) (tasks : list Row)
    (rs : RunState) (d : Z) :
  NoDup names -> (forall r, r ∈ tasks -> name r ∈ names) -> 0 <= cap ->
  exists cl,
    0 <= cl /\
    Qsum (map (fun k => get (run_remaining rs) k
                        - get (run_remaining (day_step fp cap tasks rs d)) k)
            names) == cap - cl /\
    run_rows (day_step fp cap tasks rs d)
    = run_rows rs ++
      [{| day := d;
          allocated_hours := round (cap - cl) 2;
          remaining_capacity := round cl 2;
          allocations :=
            day_allocations
              (scan_tasks fp d tasks
                 {| remaining := run_remaining rs; cap_left := cap;
                    day_allocations := []; day_log := run_log rs |});
          overload_hours :=
            round (Qmax 0 (fsub (round (cap - cl) 2) cap)) 2 |}].
Proof.
  intros Hnd Hnames Hcap.
  set (st0 := {| remaining := run_remaining rs; cap_left := cap;
                 day_allocations := []; day_log := run_log rs |}).
  destruct (scan_tasks_conserve names fp d tasks st0 Hnd Hnames Hcap)
    as [Hsum Hcl].
  exists (cap_left (scan_tasks fp d tasks st0)).
  split; [exact Hcl|]. split; [|reflexivity].
  rewrite Qsum_sub. cbn [day_step run_remaining]. fold st0.
  cbn [remaining cap_left st0] in Hsum. lra.
Qed.


(** *** The sorted table *)

Lemma insert_row_perm (le : Row -> Row -> bool) (r : Row) (l : list Row) :
  insert_row le r l ≡ₚ r :: l.
Proof.
  induction l as [|r' l IH]; cbn [insert_row]; [reflexivity|].
  destruct (le r r'); [reflexivity|].
  rewrite IH. apply perm_swap.
Qed.

Lemma sort_values_perm (le : Row -> Row -> bool) (l : list Row) :
  sort_values le l ≡ₚ l.
Proof.
  induction l as [|r l IH]; cbn [sort_values fold_right]; [reflexivity|].
  rewrite insert_row_perm. apply perm_skip. exact IH.
Qed.

Lemma sort_tasks_perm (df : DataFrame) (mode : string) (tasks : list Row) :
  sort_tasks df mode = inr tasks -> tasks ≡ₚ rows df.
Proof.
  unfold sort_tasks. destruct (String.eqb mode "Operational").
  - destruct (bool_decide _); [|discriminate].
    intros [= <-]. apply sort_values_perm.
  - intros [= <-]. apply sort_values_perm.
Qed.

Lemma build_schedule_inr
    (df : DataFrame) (cap : Q) (h : Z) (mode : string) (s : Schedule) :
  build_schedule df cap h mode = inr s ->
  exists tasks,
    sort_tasks df mode = inr tasks /\
    sorted_rows df mode = tasks /\
    tasks ≡ₚ rows df /\
    s = {| schedule_rows :=
             run_rows (state_after df cap tasks (Z.to_nat h));
           deadline_risks :=
             collect_risks
               (run_remaining (state_after df cap tasks (Z.to_nat h))) tasks;
           allocation_log :=
             run_log (state_after df cap tasks (Z.to_nat h)) |}.
Proof.
  unfold build_schedule, sorted_rows.
  destruct (sort_tasks df mode) as [e|tasks] eqn:Hsort; [discriminate|].
  intros [= <-]. exists tasks. repeat split.
  apply sort_tasks_perm in Hsort. exact Hsort.
Qed.

(** The scheduler fails only where the Operational sort cannot read
    [priority_score]. *)
Lemma build_schedule_total
    (df : DataFrame) (cap : Q) (h : Z) (mode : string) :
  mode <> "Operational"%string \/ "priority_score"%string ∈ columns df ->
  exists s, build_schedule df cap h mode = inr s.
Proof.
  intros Hmode. unfold build_schedule, sort_tasks.
  destruct (String.eqb_spec mode "Operational") as [->|Hne].
  - destruct Hmode as [Hm|Hm]; [congruence|].
    rewrite bool_decide_eq_true_2 by exact Hm. eauto.
  - eauto.
Qed.

Lemma task_names_cover (df : DataFrame) (tasks : list Row) :
  tasks ≡ₚ rows df -> forall r, r ∈ tasks -> name r ∈ task_names df.
Proof.
  intros Hperm r Hr. unfold task_names.
  apply elem_of_remove_dups, list_elem_of_fmap.
  exists r. split; [reflexivity|]. rewrite <- Hperm. exact Hr.
Qed.

Lemma allocated_on_S
    (df : DataFrame) (cap : Q) (mode : string) (n : nat) (k : string) :
  allocated_on df cap mode (S n) k
  = get (run_remaining (state_after df cap (sorted_rows df mode) n)) k
    - get (run_remaining (state_after df cap (sorted_rows df mode) (S n))) k.
Proof.
  unfold allocated_on, remaining_after.
  replace (S n - 1)%nat with n by lia. reflexivity.
Qed.

(** *** The allocation log *)

Lemma filter_all {A} (P : A -> Prop) `{!forall x, Decision (P x)}
    (l : list A) :
  Forall P l -> filter P l = l.
Proof.
  induction 1 as [|x l Hx _ IH]; [reflexivity|].
  rewrite filter_cons_True by exact Hx. rewrite IH. reflexivity.
Qed.

Lemma filter_none {A} (P : A -> Prop) `{!forall x, Decision (P x)}
    (l : list A) :
  Forall (fun x => ~ P x) l -> filter P l = [].
Proof.
  induction 1 as [|x l Hx _ IH]; [reflexivity|].
  rewrite filter_cons_False by exact Hx. exact IH.
Qed.

(** The entries that one day's scan appends: one for each name granted
    hours, carrying the day and the granted hours rounded to two decimals;
    the counters of all other names are untouched. *)
Lemma scan_tasks_log
    (fp : gmap string Q) (d : Z) (tasks : list Row) (st0 : DayState) :
  exists entries,
    day_log (scan_tasks fp d tasks st0) = day_log st0 ++ entries /\
    NoDup (map al_task entries) /\
    (forall e, e ∈ entries ->
       al_day e = d /\
       0 < get (remaining st0) (al_task e)
           - get (remaining (scan_tasks fp d tasks st0)) (al_task e) /\
       al_hours e
       == round (get (remaining st0) (al_task e)
                 - get (remaining (scan_tasks fp d tasks st0)) (al_task e))
            2) /\
    (forall n, n ∉ map al_task entries ->
       get (remaining (scan_tasks fp d tasks st0)) n
       = get (remaining st0) n).
Proof.
  pose (P := fun st : DayState =>
    exists entries,
      day_log st = day_log st0 ++ entries /\
      NoDup (map al_task entries) /\
      (forall e, e ∈ entries ->
         al_day e = d /\
         0 < get (remaining st0) (al_task e)
             - get (remaining st) (al_task e) /\
         al_hours e
         == round (get (remaining st0) (al_task e)
                   - get (remaining st) (al_task e)) 2 /\
         (get (remaining st) (al_task e) == 0 \/ cap_left st <= 0)) /\
      (forall n, n ∉ map al_task entries ->
         get (remaining st) n = get (remaining st0) n)).
  assert (HP : P (scan_tasks fp d tasks st0)).
  { apply scan_tasks_invariant.
    - intros st row _ (entries & Hlog & Hnd & Hent & Hrest) Hrem Htake.
      set (take := Qmin (cap_left st) (get (remaining st) (name row))) in *.
      assert (Hcap : 0 < cap_left st).
      { pose proof (Q.le_min_l (cap_left st)
                      (get (remaining st) (name row))).
        fold take in H. lra. }
      assert (Hnew : name row ∉ map al_task entries).
      { intros Hin. apply list_elem_of_fmap in Hin as (e & He & Hin).
        destruct (Hent e Hin) as (_ & _ & _ & [Hz|Hz]); [|lra].
        rewrite <- He in Hz. lra. }
      exists (entries ++
                [{| al_task := name row; al_day := d;
                    al_hours := round take 2;
                    al_failure_probability := default 0 (fp !! name row);
                    al_deadline_day := days_left row |}]).
      cbn [grant day_log remaining cap_left].
      split; [rewrite Hlog, app_assoc; reflexivity|].
      split.
      { rewrite map_app. apply NoDup_app. split; [exact Hnd|].
        split; [|apply NoDup_singleton].
        intros n Hn Hn'. apply list_elem_of_singleton in Hn'.
        cbn in Hn'. subst n. contradiction. }
      split.
      + intros e He. apply elem_of_app in He as [He|He].
        * destruct (Hent e He) as (Hd & Hpos & Hh & Hz).
          assert (Hne : name row <> al_task e).
          { intros Heq. apply Hnew. rewrite Heq.
            apply list_elem_of_fmap. exists e. auto. }
          rewrite get_insert, decide_False by exact Hne.
          repeat split; try assumption.
          destruct Hz as [Hz|Hz]; [left; exact Hz | lra].
        * apply list_elem_of_singleton in He. subst e.
          cbn [al_task al_day al_hours].
          rewrite get_insert, decide_True by reflexivity.
          rewrite <- (Hrest _ Hnew).
          split; [reflexivity|]. split; [lra|]. split.
          { apply round_comp. lra. }
          destruct (Q.min_spec (cap_left st)
                      (get (remaining st) (name row))) as [[_ Hm]|[_ Hm]];
            fold take in Hm; [right | left]; lra.
      + intros n Hn. rewrite map_app in Hn.
        apply not_elem_of_app in Hn as [Hn Hn'].
        rewrite get_insert, decide_False.
        * apply Hrest, Hn.
        * intros Heq. apply Hn'. rewrite <- Heq.
          apply list_elem_of_singleton. reflexivity.
    - exists []. rewrite app_nil_r. split; [reflexivity|].
      split; [constructor|]. split.
      + intros e He. inversion He.
      + reflexivity. }
  destruct HP as (entries & Hlog & Hnd & Hent & Hrest).
  exists entries. split; [exact Hlog|]. split; [exact Hnd|].
  split; [|exact Hrest].
  intros e He. destruct (Hent e He) as (Hd & Hpos & Hh & _). auto.
Qed.

(** What the log holds after [n] days: for each day, one entry per name
    granted hours that day, with the granted hours rounded. *)
Lemma log_after (df : DataFrame) (cap : Q) (mode : string) (n : nat) :
  Forall (fun e => (1 <= al_day e <= Z.of_nat n)%Z)
    (run_log (state_after df cap (sorted_rows df mode) n)) /\
  forall d : nat,
    (1 <= d <= n)%nat ->
    NoDup (map al_task
             (filter (fun e => al_day e = Z.of_nat d)
                (run_log (state_after df cap (sorted_rows df mode) n)))) /\
    (forall e,
       e ∈ filter (fun e => al_day e = Z.of_nat d)
             (run_log (state_after df cap (sorted_rows df mode) n)) ->
       0 < allocated_on df cap mode d (al_task e) /\
       al_hours e == round (allocated_on df cap mode d (al_task e)) 2) /\
    (forall k,
       k ∉ map al_task
             (filter (fun e => al_day e = Z.of_nat d)
                (run_log (state_after df cap (sorted_rows df mode) n))) ->
       allocated_on df cap mode d k == 0).
Proof.
  induction n as [|n [IHall IH]].
  - split; [constructor|]. intros d Hd. lia.
  - rewrite state_after_S.
    set (rs := state_after df cap (sorted_rows df mode) n) in *.
    set (st0 := {| remaining := run_remaining rs; cap_left := cap;
                   day_allocations := []; day_log := run_log rs |}).
    destruct (scan_tasks_log (fp_lookup_of df (sorted_rows df mode))
                (Z.of_nat (S n)) (sorted_rows df mode) st0)
      as (entries & Hlog & Hnd & Hent & Hrest).
    assert (Hrem : forall k,
              allocated_on df cap mode (S n) k
              = get (remaining st0) k
                - get (remaining
                         (scan_tasks (fp_lookup_of df (sorted_rows df mode))
                            (Z.of_nat (S n)) (sorted_rows df mode) st0)) k).
    { intros k. rewrite allocated_on_S, state_after_S. reflexivity. }
    cbn [day_step run_log]. fold st0. rewrite Hlog. cbn [day_log st0].
    assert (Hnew : Forall (fun e => al_day e = Z.of_nat (S n)) entries).
    { apply Forall_forall. intros e He. apply (Hent e He). }
    split.
    { apply Forall_app. split.
      - eapply Forall_impl; [exact IHall|]. cbn. intros e He. lia.
      - eapply Forall_impl; [exact Hnew|]. cbn. intros e He. lia. }
    intros d Hd. rewrite filter_app.
    destruct (decide (d = S n)) as [->|Hne].
    + rewrite (filter_none _ (run_log rs)), (filter_all _ entries),
        app_nil_l.
      * split; [exact Hnd|]. split.
        -- intros e He. rewrite Hrem. destruct (Hent e He) as (_ & Hp & Hh).
           auto.
        -- intros k Hk. rewrite Hrem, (Hrest k Hk). lra.
      * exact Hnew.
      * eapply Forall_impl; [exact IHall|]. cbn. intros e He. lia.
    + rewrite (filter_none _ entries), app_nil_r.
      * apply IH. lia.
      * eapply Forall_impl; [exact Hnew|]. cbn. intros e He. rewrite He. lia.
Qed.

(** The allocation log of a schedule, day by day: the entries of day [d]
    name distinct tasks, each was granted a positive number of hours and
    reports them rounded to two decimals, and no other task was granted
    hours that day. *)
Lemma allocation_log_day
    (df : DataFrame) (cap : Q) (h : Z) (mode : string) (s : Schedule)
    (d : nat) :
  build_schedule df cap h mode = inr s ->
  (1 <= d <= Z.to_nat h)%nat ->
  NoDup (map al_task
           (filter (fun e => al_day e = Z.of_nat d) (allocation_log s))) /\
  (forall e,
     e ∈ filter (fun e => al_day e = Z.of_nat d) (allocation_log s) ->
     0 < allocated_on df cap mode d (al_task e) /\
     al_hours e == round (allocated_on df cap mode d (al_task e)) 2) /\
  (forall k,
     k ∉ map al_task
           (filter (fun e => al_day e = Z.of_nat d) (allocation_log s)) ->
     allocated_on df cap mode d k == 0).
Proof.
  intros Hs Hd.
  apply build_schedule_inr in Hs as (tasks & _ & Hsorted & _ & ->).
  rewrite <- Hsorted. cbn [allocation_log].
  apply (log_after df cap mode (Z.to_nat h)). exact Hd.
Qed.

(** *** The ledger *)

(** What the ledger holds after [n] days. *)
Lemma ledger_after (df : DataFrame) (cap : Q) (mode : string) (n : nat) :
  0 <= cap ->
  sorted_rows df mode ≡ₚ rows df ->
  length (run_rows (state_after df cap (sorted_rows df mode) n)) = n /\
  forall d : nat,
    (1 <= d <= n)%nat ->
    Qsum (map (allocated_on df cap mode d) (task_names df)) <= cap /\
    exists row,
      run_rows (state_after df cap (sorted_rows df mode) n) !! (d - 1)%nat
      = Some row /\
      day row = Z.of_nat d /\
      allocated_hours row
      == round (Qsum (map (allocated_on df cap mode d) (task_names df))) 2 /\
      allocated_hours row <= cap + (1 # 200).
Proof.
  intros Hcap Hperm. induction n as [|n [IHlen IH]].
  - split; [reflexivity|]. intros d Hd. lia.
  - rewrite state_after_S.
    destruct (day_step_conserve (task_names df)
                (fp_lookup_of df (sorted_rows df mode)) cap
                (sorted_rows df mode)
                (state_after df cap (sorted_rows df mode) n)
                (Z.of_nat (S n)))
      as (cl & Hcl & Hsum & Hrows).
    { apply NoDup_remove_dups. }
    { apply task_names_cover, Hperm. }
    { exact Hcap. }
    rewrite <- state_after_S in Hsum.
    assert (Hday : Qsum (map (allocated_on df cap mode (S n)) (task_names df))
                   == cap - cl).
    { rewrite <- Hsum. erewrite map_ext; [reflexivity|].
      intros k. apply allocated_on_S. }
    rewrite Hrows. split.
    { rewrite length_app, IHlen. cbn. lia. }
    intros d Hd. destruct (decide (d = S n)) as [->|Hne].
    + split; [lra|]. eexists. split.
      { replace (S n - 1)%nat with (length (run_rows
          (state_after df cap (sorted_rows df mode) n)) + 0)%nat by lia.
        rewrite lookup_app_r by lia.
        replace (_ + 0 - _)%nat with 0%nat by lia. reflexivity. }
      cbn [day allocated_hours].
      split; [reflexivity|]. split.
      * apply round_comp. symmetry. exact Hday.
      * pose proof (round2_upper (cap - cl)) as Hr. lra.
    + destruct (IH d ltac:(lia)) as (Hle & row & Hrow & Hrest).
      split; [exact Hle|]. exists row. split; [|exact Hrest].
      rewrite lookup_app_l by lia. exact Hrow.
Qed.

(** C5 fails as stated.  One task of 10 hours at a capacity of 8.375 fills
    the day: the ledger reports 8.38 allocated hours, above the capacity,
    and the double 8.38 minus 8.375 lies above 0.005, so [overload_hours]
    is 0.01.  Three tasks of 0.328, 0.336 and 0.336 hours at a capacity of
    1 are logged with 0.33, 0.34 and 0.34 hours, 1.01 in all. *)
Lemma C5_counterexample :
  (exists s row,
     build_schedule (one_task_table 10) 8.375 1 "Academic" = inr s /\
     schedule_rows s = [row] /\
     allocated_hours row == 8.38 /\
     ~ allocated_hours row <= 8.375 /\
     overload_hours row == 0.01 /\
     ~ overload_hours row == 0) /\
  (exists s,
     build_schedule three_task_table 1 1 "Academic" = inr s /\
     map al_day (allocation_log s) = [1%Z; 1%Z; 1%Z] /\
     Qsum (map al_hours (allocation_log s)) == 1.01 /\
     ~ Qsum (map al_hours (allocation_log s)) <= 1).
Proof.
  split.
  - eexists. eexists. split; [vm_compute; reflexivity|].
    split; [reflexivity|].
    split; [vm_compute; reflexivity|].
    split; [intros H; vm_compute in H; apply H; reflexivity|].
    split; [vm_compute; reflexivity|].
    intros H. vm_compute in H. discriminate.
  - eexists. split; [vm_compute; reflexivity|].
    split; [vm_compute; reflexivity|].
    split; [vm_compute; reflexivity|].
    intros H. vm_compute in H. apply H. reflexivity.
Qed.

(** C5, amended.  With a capacity that is not negative, on every day of
    the schedule the hours granted - what the day takes off the
    [remaining] counters - summed over the tasks are at most
    [daily_capacity].  The day's ledger row reports that sum rounded to
    two decimals, so at most 0.005 above the capacity; the day's log
    entries name distinct tasks and report the hours granted to each,
    rounded to two decimals, and no other task is granted hours that
    day. *)
Theorem C5_capacity_conservation
    (df : DataFrame) (daily_capacity : Q) (horizon_days : Z) (mode : string)
    (s : Schedule) :
  0 <= daily_capacity ->
  build_schedule df daily_capacity horizon_days mode = inr s ->
  length (schedule_rows s) = Z.to_nat horizon_days /\
  forall d : nat,
    (1 <= d <= Z.to_nat horizon_days)%nat ->
    Qsum (map (allocated_on df daily_capacity mode d) (task_names df))
    <= daily_capacity /\
    (exists row,
       schedule_rows s !! (d - 1)%nat = Some row /\
       day row = Z.of_nat d /\
       allocated_hours row
       == round (Qsum (map (allocated_on df daily_capacity mode d)
                         (task_names df))) 2 /\
       allocated_hours row <= daily_capacity + (1 # 200)) /\
    NoDup (map al_task
             (filter (fun e => al_day e = Z.of_nat d) (allocation_log s))) /\
    (forall e,
       e ∈ filter (fun e => al_day e = Z.of_nat d) (allocation_log s) ->
       0 < allocated_on df daily_capacity mode d (al_task e) /\
       al_hours e
       == round (allocated_on df daily_capacity mode d (al_task e)) 2) /\
    (forall k,
       k ∉ map al_task
             (filter (fun e => al_day e = Z.of_nat d) (allocation_log s)) ->
       allocated_on df daily_capacity mode d k == 0).
Proof.
  intros Hcap Hs.
  pose proof (fun d => allocation_log_day df daily_capacity horizon_days
                         mode s d Hs) as Hlog.
  apply build_schedule_inr in Hs as (tasks & _ & Hsorted & Hperm & ->).
  rewrite <- Hsorted in Hperm |- *. cbn [schedule_rows].
  destruct (ledger_after df daily_capacity mode (Z.to_nat horizon_days)
              Hcap Hperm) as [Hlen Hdays].
  split; [exact Hlen|]. intros d Hd.
  destruct (Hdays d Hd) as [Hle Hrow].
  split; [exact Hle|]. split; [exact Hrow|].
  rewrite <- Hsorted in Hlog. apply (Hlog d Hd).
Qed.

Lemma C5_capacity_conservation_witness :
  exists s,
    build_schedule (one_task_table 10) 8.375 1 "Academic" = inr s /\
    Qsum (map (allocated_on (one_task_table 10) 8.375 "Academic" 1)
            (task_names (one_task_table 10)))
    <= 8.375 /\
    exists row,
      schedule_rows s !! 0%nat = Some row /\
      day row = 1%Z /\
      allocated_hours row
      == round (Qsum (map (allocated_on (one_task_table 10) 8.375
                             "Academic" 1)
                        (task_names (one_task_table 10)))) 2 /\
      allocated_hours row <= 8.375 + (1 # 200).
Proof.
  eexists. split; [reflexivity|].
  destruct (C5_capacity_conservation (one_task_table 10) 8.375 1 "Academic"
              _ ltac:(vm_compute; discriminate) eq_refl) as [_ Hdays].
  destruct (Hdays 1%nat ltac:(vm_compute; lia)) as (Hle & Hrow & _).
  split; [exact Hle | exact Hrow].
Defined.

(** The scheduling scenario of the spec, evaluated: day 1 gives A 4 hours,
    day 2 gives A its last hour and B 3 hours, day 3 gives B 2 hours, and
    no task is at risk. *)
Lemma scheduling_scenario :
  exists s,
    build_schedule scenario_table 4 3 "Academic" = inr s /\
    map (fun row => map (fun p => (fst p, Qred (snd p))) (allocations row))
      (schedule_rows s)
    = [[("A"%string, 4)]; [("A"%string, 1); ("B"%string, 3)];
       [("B"%string, 2)]] /\
    deadline_risks s = [].
Proof.
  eexists. split; [vm_compute; reflexivity|].
  split; vm_compute; reflexivity.
Qed.

(** *** Deadline risks *)

Lemma collect_risks_other
    (rem : gmap string Q) (tasks : list Row) (k : string) :
  k ∉ map name tasks ->
  filter (fun e => dr_task e = k) (collect_risks rem tasks) = [].
Proof.
  induction tasks as [|row tasks IH]; intros Hk; [reflexivity|].
  cbn [map] in Hk. apply not_elem_of_cons in Hk as [Hne Hk].
  cbn [collect_risks]. destruct (Qltb 0 (get rem (name row))).
  - rewrite filter_cons_False by (cbn; congruence). apply IH, Hk.
  - apply IH, Hk.
Qed.

(** With distinct names, a task with hours left has exactly one entry. *)
Lemma collect_risks_one
    (rem : gmap string Q) (tasks : list Row) (t : Row) :
  NoDup (map name tasks) -> t ∈ tasks -> 0 < get rem (name t) ->
  filter (fun e => dr_task e = name t) (collect_risks rem tasks)
  = [{| dr_task := name t;
        dr_unfinished_hours := round (get rem (name t)) 2;
        dr_deadline_day := days_left t |}].
Proof.
  intros Hnd Ht Hrem. induction tasks as [|row tasks IH]; [inversion Ht|].
  cbn [map] in Hnd. apply NoDup_cons in Hnd as [Hrow Hnd].
  cbn [collect_risks]. apply elem_of_cons in Ht as [<-|Ht].
  - apply Qltb_lt in Hrem. rewrite Hrem.
    rewrite filter_cons_True by reflexivity.
    rewrite (collect_risks_other _ _ _ Hrow). reflexivity.
  - assert (Hne : name row <> name t).
    { intros Heq. apply Hrow. rewrite Heq.
      apply list_elem_of_fmap. exists t. auto. }
    destruct (Qltb 0 (get rem (name row))).
    + rewrite filter_cons_False by (cbn; exact Hne). apply IH; assumption.
    + apply IH; assumption.
Qed.

Lemma total_allocated_eq
    (df : DataFrame) (cap : Q) (h : Z) (mode : string) (t : Row) :
  NoDup (map name (rows df)) -> sorted_rows df mode ≡ₚ rows df ->
  t ∈ rows df ->
  total_allocated df cap h mode (name t)
  == est_hours t
     - get (remaining_after df cap mode (Z.to_nat h)) (name t).
Proof.
  intros Hnd Hperm Ht. unfold total_allocated, allocated_on.
  rewrite (Qsum_telescope
             (fun n => get (remaining_after df cap mode n) (name t))).
  unfold remaining_after at 1, state_after. cbn [seq map run_days fold_left
    initial_state run_remaining].
  rewrite get_dict_of; [reflexivity | | ].
  - rewrite Hperm. exact Hnd.
  - rewrite Hperm. exact Ht.
Qed.

(** C6 fails as stated, twice over.  One task of 1.234 hours with one
    hour of capacity is granted 1 hour, and its entry reports 0.23
    unfinished hours, not 0.234.  Two rows named ["A"] share one counter:
    the row of 3 hours is granted less than 3 and ["A"] is listed twice. *)
Lemma C6_counterexample :
  (exists s e,
     build_schedule (one_task_table 1.234) 1 1 "Academic" = inr s /\
     deadline_risks s = [e] /\
     total_allocated (one_task_table 1.234) 1 1 "Academic" "A" == 1 /\
     dr_unfinished_hours e == 0.23 /\
     ~ dr_unfinished_hours e
       == 1.234
          - total_allocated (one_task_table 1.234) 1 1 "Academic" "A") /\
  (exists s,
     build_schedule same_name_table 1 1 "Academic" = inr s /\
     total_allocated same_name_table 1 1 "Academic" "A" < 3 /\
     length (filter (fun e => dr_task e = "A"%string) (deadline_risks s))
     = 2%nat).
Proof.
  split.
  - eexists. eexists. split; [vm_compute; reflexivity|].
    split; [reflexivity|]. split; [vm_compute; reflexivity|].
    split; [vm_compute; reflexivity|].
    intros H. vm_compute in H. discriminate.
  - eexists. split; [vm_compute; reflexivity|].
    split; [vm_compute; reflexivity|]. vm_compute. reflexivity.
Qed.

(** C6, amended.  On a table of distinct names and non-negative
    [est_hours], each task is granted at most its [est_hours] over the
    horizon; when it is granted less, exactly one deadline risk names it,
    with the missing hours rounded to two decimals and with its
    [days_left] as deadline day. *)
Theorem C6_work_conservation
    (df : DataFrame) (daily_capacity : Q) (horizon_days : Z) (mode : string)
    (s : Schedule) (t : Row) :
  NoDup (map name (rows df)) ->
  Forall (fun r => 0 <= est_hours r) (rows df) ->
  t ∈ rows df ->
  build_schedule df daily_capacity horizon_days mode = inr s ->
  total_allocated df daily_capacity horizon_days mode (name t)
  <= est_hours t /\
  (total_allocated df daily_capacity horizon_days mode (name t)
   < est_hours t ->
   exists e,
     filter (fun e => dr_task e = name t) (deadline_risks s) = [e] /\
     dr_unfinished_hours e
     == round (est_hours t
               - total_allocated df daily_capacity horizon_days mode
                   (name t)) 2 /\
     dr_deadline_day e = days_left t).
Proof.
  intros Hnd Hest Ht Hs.
  apply build_schedule_inr in Hs as (tasks & _ & Hsorted & Hperm & ->).
  rewrite <- Hsorted in Hperm |- *.
  pose proof (total_allocated_eq df daily_capacity horizon_days mode t
                Hnd Hperm Ht) as Htot.
  assert (Hnn : 0 <= get (remaining_after df daily_capacity mode
                            (Z.to_nat horizon_days)) (name t)).
  { apply state_after_nonneg. rewrite Hperm. exact Hest. }
  split; [lra|]. intros Hlt. eexists. split.
  - cbn [deadline_risks]. apply collect_risks_one.
    + rewrite Hperm. exact Hnd.
    + rewrite Hperm. exact Ht.
    + fold (remaining_after df daily_capacity mode (Z.to_nat horizon_days)).
      lra.
  - cbn [dr_unfinished_hours dr_deadline_day]. split; [|reflexivity].
    apply round_comp.
    fold (remaining_after df daily_capacity mode (Z.to_nat horizon_days)).
    lra.
Qed.


Lemma C6_work_conservation_witness :
  exists s,
    build_schedule (one_task_table 1.234) 1 1 "Academic" = inr s /\
    total_allocated (one_task_table 1.234) 1 1 "Academic" "A" <= 1.234 /\
    (total_allocated (one_task_table 1.234) 1 1 "Academic" "A" < 1.234 ->
     exists e,
       filter (fun e => dr_task e = "A"%string) (deadline_risks s) = [e] /\
       dr_unfinished_hours e
       == round (1.234
                 - total_allocated (one_task_table 1.234) 1 1 "Academic" "A")
            2 /\
       dr_deadline_day e = 1%Z).
Proof.
  eexists. split; [reflexivity|].
  refine (C6_work_conservation (one_task_table 1.234) 1 1 "Academic" _
            {| name := "A"; days_left := 1; est_hours := 1.234;
               priority_score := 0; failure_probability := 0 |}
            _ _ _ eq_refl).
  - cbn. apply NoDup_singleton.
  - repeat constructor. vm_compute. discriminate.
  - apply list_elem_of_here.
Defined.

(** *** A table without [failure_probability] *)

Lemma grant_clear_fp
    (fp : gmap string Q) (d : Z) (row : Row) (take : Q) (st : DayState) :
  grant ∅ d row take (day_state_clear_fp st)
  = day_state_clear_fp (grant fp d row take st).
Proof.
  unfold grant, day_state_clear_fp.
  cbn [remaining cap_left day_allocations day_log].
  rewrite map_app, lookup_empty. reflexivity.
Qed.

Lemma scan_tasks_clear_fp
    (fp : gmap string Q) (d : Z) (tasks : list Row) (st : DayState) :
  scan_tasks ∅ d tasks (day_state_clear_fp st)
  = day_state_clear_fp (scan_tasks fp d tasks st).
Proof.
  revert st. induction tasks as [|row tasks IH]; intros st; [reflexivity|].
  cbn [scan_tasks]. cbn [remaining cap_left day_state_clear_fp] in *.
  destruct (Qle_bool (get (remaining st) (name row)) 0); [apply IH|].
  destruct (days_left row <? d)%Z; [apply IH|].
  destruct (Qltb 0 (Qmin (cap_left st) (get (remaining st) (name row)))).
  - rewrite (grant_clear_fp fp).
    cbn [cap_left day_state_clear_fp].
    destruct (Qle_bool _ 0); [reflexivity | apply IH].
  - destruct (Qle_bool _ 0); [reflexivity | apply IH].
Qed.

Lemma day_step_clear_fp
    (fp : gmap string Q) (cap : Q) (tasks : list Row) (rs : RunState)
    (d : Z) :
  day_step ∅ cap tasks (run_state_clear_fp rs) d
  = run_state_clear_fp (day_step fp cap tasks rs d).
Proof.
  unfold day_step. cbn [run_remaining run_log run_state_clear_fp].
  change {| remaining := run_remaining rs; cap_left := cap;
            day_allocations := []; day_log := map clear_fp (run_log rs) |}
    with (day_state_clear_fp
            {| remaining := run_remaining rs; cap_left := cap;
               day_allocations := []; day_log := run_log rs |}).
  rewrite (scan_tasks_clear_fp fp). reflexivity.
Qed.

Lemma run_days_clear_fp
    (fp : gmap string Q) (cap : Q) (tasks : list Row) (days : list Z)
    (rs : RunState) :
  run_days ∅ cap tasks days (run_state_clear_fp rs)
  = run_state_clear_fp (run_days fp cap tasks days rs).
Proof.
  unfold run_days. revert rs.
  induction days as [|d days IH]; intros rs; [reflexivity|].
  cbn [fold_left]. rewrite (day_step_clear_fp fp). apply IH.
Qed.

(** C10.  Let [df] lack the [failure_probability] column and let [df']
    hold the same rows and agree with [df] on [priority_score].  Whenever
    the mode's sort can run (any mode but Operational, or [priority_score]
    present), [build_schedule] succeeds on both; the ledgers and the
    deadline risks are equal, the logs are equal up to
    [failure_probability], and every entry of [df]'s log reports 0. *)
Theorem C10_no_failure_probability_column
    (df df' : DataFrame) (daily_capacity : Q) (horizon_days : Z)
    (mode : string) :
  "failure_probability"%string ∉ columns df ->
  rows df' = rows df ->
  ("priority_score"%string ∈ columns df'
   <-> "priority_score"%string ∈ columns df) ->
  mode <> "Operational"%string \/ "priority_score"%string ∈ columns df ->
  exists s s',
    build_schedule df daily_capacity horizon_days mode = inr s /\
    build_schedule df' daily_capacity horizon_days mode = inr s' /\
    schedule_rows s = schedule_rows s' /\
    deadline_risks s = deadline_risks s' /\
    allocation_log s = map clear_fp (allocation_log s') /\
    Forall (fun e => al_failure_probability e = 0) (allocation_log s).
Proof.
  intros Hfp Hrows Hps Hmode.
  assert (Hsort : exists tasks,
            sort_tasks df mode = inr tasks /\
            sort_tasks df' mode = inr tasks).
  { unfold sort_tasks. rewrite Hrows.
    destruct (String.eqb_spec mode "Operational") as [->|Hne].
    - destruct Hmode as [Hm|Hm]; [congruence|].
      rewrite !bool_decide_eq_true_2 by tauto. eauto.
    - eauto. }
  destruct Hsort as (tasks & Hs & Hs').
  unfold build_schedule. rewrite Hs, Hs'.
  eexists. eexists. split; [reflexivity|]. split; [reflexivity|].
  cbn [schedule_rows deadline_risks allocation_log].
  assert (Hrun : run_days (fp_lookup_of df tasks) daily_capacity tasks
                   (day_range horizon_days) (initial_state tasks)
                 = run_state_clear_fp
                     (run_days (fp_lookup_of df' tasks) daily_capacity tasks
                        (day_range horizon_days) (initial_state tasks))).
  { unfold fp_lookup_of at 1. rewrite (bool_decide_eq_false_2 _ Hfp).
    rewrite <- (run_days_clear_fp (fp_lookup_of df' tasks)).
    reflexivity. }
  rewrite Hrun. cbn [run_rows run_remaining run_log run_state_clear_fp].
  repeat split. apply Forall_map, Forall_forall. intros e _. reflexivity.
Qed.

Lemma C10_no_failure_probability_column_witness :
  exists s s',
    build_schedule scenario_table 4 3 "Academic" = inr s /\
    build_schedule scenario_table_fp 4 3 "Academic" = inr s' /\
    schedule_rows s = schedule_rows s' /\
    deadline_risks s = deadline_risks s' /\
    allocation_log s = map clear_fp (allocation_log s') /\
    Forall (fun e => al_failure_probability e = 0) (allocation_log s).
Proof.
  apply (C10_no_failure_probability_column scenario_table scenario_table_fp
           4 3 "Academic").
  - compute_done.
  - reflexivity.
  - split; intros H; exfalso; revert H; compute_done.
  - left. discriminate.
Defined.

End SchedulerFacts.

(* ================================================================== *)
(** ** Further properties of risk_model.py *)
(* ================================================================== *)

Module RiskModelProperties.
Import RiskModel RiskModelFacts.
Import Lra.
Local Open Scope R_scope.

(** *** The stress index *)








(** *** Columns of the risk table *)





(** *** Inputs out of range *)




(** *** The dependency flag *)

Lemma check_required_columns (df df' : DataFrame) :
  columns df = columns df' ->
  check_required (columns df) required_cols
  = check_required (columns df') required_cols.
Proof. intros ->. reflexivity. Qed.






(** *** More load, more risk *)






(** *** The planning horizon *)



(** *** A window with room *)




(** *** The forecast *)














End RiskModelProperties.

(* ================================================================== *)
(** ** Further properties of scheduler.py *)
(* ================================================================== *)

Module SchedulerProperties.
Import Scheduler SchedulerFacts.
Import Lqa.
Local Open Scope Q_scope.

(** *** Rounding keeps the sign *)






(** *** Grants and deadlines *)






(** *** The ledger row of a day *)



(** *** No idle capacity *)






(** *** Deadline risks *)





(** *** Raising and not raising *)


(** *** A horizon without days *)




(** *** Work that cannot fit *)







(** *** A table without rows *)





(** *** The ledger and the log agree *)






(** *** Earliest deadline first *)



















End SchedulerProperties.

(* ================================================================== *)
(** ** Properties of scoring.py and ui_calendar.py *)
(* ================================================================== *)

Module ScoringFacts.
Import Scoring.
Import Lqa.
Local Open Scope Q_scope.
























End ScoringFacts.

Module CalendarFacts.
Import Scheduler SchedulerFacts Calendar.
Import Lqa.
Local Open Scope Q_scope.








End CalendarFacts.
